(** * The hide-list membership engine of [native/jni/zygisk/hide/utils.cpp]

    A shallow embedding of the hide-list store, the app-id index, the
    process reaper, the matcher and the enable/disable controller, followed
    by the properties proved about them.

    Conventions.
    - A [string] stands for a C string or a [string_view]: the characters
      in front of the terminating NUL.
    - [int] values are [Z]; the one place where the source mixes [int]
      with [size_t] writes the conversion out ([size_of_int]).
    - [std::map] is [gmap], [std::set] is [gset]; a range-for over a set
      of strings visits [in_order], its elements in ascending order.
    - The two [unique_ptr] globals are [option]s.  Dereferencing an empty
      one, the null [procfp], or the [end()] iterator is the outcome
      [Fault]. *)

From Stdlib Require Import ZArith Lia Ascii String DecimalString.
From stdpp Require Import base option list sorting gmap strings fin_maps fin_sets.

Local Open Scope Z_scope.

(** ** Strings *)

Module Str.

(** [str_eql] of the source: [s == ss] on [string_view]s. *)
Definition str_eql (s ss : string) : bool := String.eqb s ss.

(** Modelled from the spec: [str_starts] comes from the utility header
    [utils.hpp].  [str_starts s ss] holds when [s] starts with [ss]: the
    reaper call [proc_name_match<&str_starts>] passes the command line
    first and the stored name second, and is described as killing the
    processes whose name starts with the stored name. *)
Fixpoint str_starts (s ss : string) {struct ss} : bool :=
  match ss with
  | EmptyString => true
  | String c ss' =>
      match s with
      | EmptyString => false
      | String d s' => Ascii.eqb d c && str_starts s' ss'
      end
  end.

(** Modelled from the spec: [str_ends] comes from the same header.
    [str_ends s ss] holds when [s] ends with [ss]: the enable-time sweep
    uses it to find the processes whose command line ends with a suffix. *)
Definition str_ends (s ss : string) : bool :=
  (String.length ss <=? String.length s)%nat
  && String.eqb (substring (String.length s - String.length ss)
                           (String.length ss) s) ss.

(** [proc[0] == '\0'] *)
Definition is_empty (s : string) : bool :=
  match s with EmptyString => true | String _ _ => false end.

(** The order in which a [std::set] of strings is walked. *)
Definition str_le (a b : string) : Prop := Is_true (String.leb a b).

(** The characters of C's [isalnum] in the C locale: the digits and the
    letters of ASCII, and no byte above 127. *)
Definition isalnum (c : ascii) : bool :=
  let n := nat_of_ascii c in
  ((48 <=? n) && (n <=? 57) || (65 <=? n) && (n <=? 90)
   || (97 <=? n) && (n <=? 122))%nat.

Definition underscore : ascii := "_"%char.
Definition dot : ascii := "."%char.
Definition colon : ascii := ":"%char.

End Str.
Export Str.

(** ** Constants of the headers *)

(** What [utils.cpp] takes from [hide.hpp] and [magisk.hpp] is a parameter
    of the development. *)
Class Platform := {
  (** the reserved package name of isolated processes *)
  ISOLATED_MAGIC : string;
  (** the macro that maps a uid to its app id *)
  to_app_id : Z -> Z;
  (** the default of the third argument of [is_hide_target] *)
  DEFAULT_MAX_LEN : Z;
}.

(** Status codes returned to the client. *)
Inductive status : Set :=
  | DAEMON_SUCCESS
  | DAEMON_ERROR
  | HIDE_INVALID_PKG
  | HIDE_ITEM_EXIST
  | HIDE_ITEM_NOT_EXIST
  | HIDE_NO_NS.

(** ** The world outside the daemon *)

(** What the file system, the process table and the database answer while
    one operation runs.  Every operation takes the world it runs in, so a
    sequence of calls may see the world change between them. *)

(** What opening and reading [/proc/<pid>/cmdline] gives. *)
Inductive cmdline_read : Set :=
  | CannotOpen               (* open_file fails *)
  | NothingRead              (* fgets reads no character *)
  | Line (s : string).       (* the C string fgets leaves in buf *)

(** One entry of a user's directory under the app data directory;
    [st_uid] is [None] when the entry cannot be stat'ed. *)
Record pkg_dir : Set := { d_name : string; st_uid : option Z }.

(** One entry of the app data directory; [user_entries] is [None] when it
    cannot be opened as a directory. *)
Record user_dir : Set :=
  { user_name : string; user_entries : option (list pkg_dir) }.

Record world := {
  (** [st.st_ino] after [stat] of the package registry; [0] when the call
      fails, since [st] is zero-initialised *)
  packages_xml_ino : Z;
  (** the app data directory in [readdir] order, without [.] and [..];
      [None] when it cannot be opened *)
  app_data : option (list user_dir);
  (** [parse_int] of the entries of [/proc], in [readdir] order *)
  proc_pids : list Z;
  proc_cmdline : Z -> cmdline_read;
  (** [access("/proc/self/ns/mnt", F_OK) == 0] *)
  ns_mnt_exists : bool;
  (** [opendir("/proc")] succeeds *)
  proc_dir_opens : bool;
  SDK_INT : Z;
  (** the rows [SELECT * FROM hidelist] hands to its callback, and whether
      the statement then reports an error *)
  db_hidelist : list (string * string);
  db_select_fails : bool;
  (** whether an INSERT or DELETE reports an error *)
  db_write_fails : bool;
  (** [new_daemon_thread] returns non-zero *)
  thread_start_fails : bool;
}.

(** ** The daemon's state and its observable effects *)

Inductive sql : Set :=
  | SelectHidelist
  | InsertHide (pkg proc : string)
  | DeleteHidePkg (pkg : string)
  | DeleteHide (pkg proc : string)
  | ReplaceHideConfig (enabled : bool).

Inductive signal : Set := SIGTERMTHRD | SIGALRM.

Inductive event : Set :=
  | Kill (pid : Z)                     (* kill(pid, SIGKILL) *)
  | DbExec (q : sql)                   (* db_exec(sql) *)
  | HideSensitiveProps
  | HideLateSensitiveProps
  | NewDaemonThread                    (* new_daemon_thread(&proc_monitor) *)
  | PthreadKill (sig : signal).        (* pthread_kill(monitor_thread, sig) *)

Record state := {
  pkg_to_procs_ : option (gmap string (gset string));
  app_id_to_pkgs_ : option (gmap Z (gset string));
  hide_enabled : bool;
  pkg_xml_ino : Z;
  cached_manager_app_id : Z;
  (** whether [procfp] is an open directory stream *)
  procfp : bool;
  (** everything done to the outside, oldest first *)
  trace : list event;
}.

Definition set_pkg_to_procs (v : option (gmap string (gset string))) (s : state) : state :=
  {| pkg_to_procs_ := v; app_id_to_pkgs_ := app_id_to_pkgs_ s;
     hide_enabled := hide_enabled s; pkg_xml_ino := pkg_xml_ino s;
     cached_manager_app_id := cached_manager_app_id s;
     procfp := procfp s; trace := trace s |}.

Definition set_app_id_to_pkgs (v : option (gmap Z (gset string))) (s : state) : state :=
  {| pkg_to_procs_ := pkg_to_procs_ s; app_id_to_pkgs_ := v;
     hide_enabled := hide_enabled s; pkg_xml_ino := pkg_xml_ino s;
     cached_manager_app_id := cached_manager_app_id s;
     procfp := procfp s; trace := trace s |}.

Definition set_hide_enabled (v : bool) (s : state) : state :=
  {| pkg_to_procs_ := pkg_to_procs_ s; app_id_to_pkgs_ := app_id_to_pkgs_ s;
     hide_enabled := v; pkg_xml_ino := pkg_xml_ino s;
     cached_manager_app_id := cached_manager_app_id s;
     procfp := procfp s; trace := trace s |}.

Definition set_pkg_xml_ino (v : Z) (s : state) : state :=
  {| pkg_to_procs_ := pkg_to_procs_ s; app_id_to_pkgs_ := app_id_to_pkgs_ s;
     hide_enabled := hide_enabled s; pkg_xml_ino := v;
     cached_manager_app_id := cached_manager_app_id s;
     procfp := procfp s; trace := trace s |}.

Definition set_cached_manager_app_id (v : Z) (s : state) : state :=
  {| pkg_to_procs_ := pkg_to_procs_ s; app_id_to_pkgs_ := app_id_to_pkgs_ s;
     hide_enabled := hide_enabled s; pkg_xml_ino := pkg_xml_ino s;
     cached_manager_app_id := v;
     procfp := procfp s; trace := trace s |}.

Definition set_procfp (v : bool) (s : state) : state :=
  {| pkg_to_procs_ := pkg_to_procs_ s; app_id_to_pkgs_ := app_id_to_pkgs_ s;
     hide_enabled := hide_enabled s; pkg_xml_ino := pkg_xml_ino s;
     cached_manager_app_id := cached_manager_app_id s;
     procfp := v; trace := trace s |}.

Definition set_trace (v : list event) (s : state) : state :=
  {| pkg_to_procs_ := pkg_to_procs_ s; app_id_to_pkgs_ := app_id_to_pkgs_ s;
     hide_enabled := hide_enabled s; pkg_xml_ino := pkg_xml_ino s;
     cached_manager_app_id := cached_manager_app_id s;
     procfp := procfp s; trace := v |}.

(** The globals as the daemon starts. *)
Definition boot : state :=
  {| pkg_to_procs_ := None; app_id_to_pkgs_ := None; hide_enabled := false;
     pkg_xml_ino := 0; cached_manager_app_id := -1; procfp := false;
     trace := [] |}.

(** ** Computations: a state monad with a fault outcome *)

Inductive outcome (A : Type) : Type :=
  | Ret (a : A) (s : state)
  | Fault.
Arguments Ret {A} a s.
Arguments Fault {A}.

Definition M (A : Type) : Type := state -> outcome A.

Definition ret {A} (a : A) : M A := fun s => Ret a s.

Definition bind {A B} (m : M A) (k : A -> M B) : M B :=
  fun s => match m s with
           | Ret a s' => k a s'
           | Fault => Fault
           end.

Definition fault {A} : M A := fun _ => Fault.
Definition get : M state := fun s => Ret s s.
Definition modify (f : state -> state) : M unit := fun s => Ret tt (f s).
Definition emit (e : event) : M unit :=
  modify (fun s => set_trace (trace s ++ [e]) s).

Notation "'let*' x ':=' c 'in' k" := (bind c (fun x => k))
  (at level 10, x name, c at level 100, k at level 200).
Notation "c '>>' k" := (bind c (fun _ => k))
  (at level 100, k at level 200, right associativity).

(** ** The operations of the source file *)

Section Operations.
Context `{Platform}.

(** *** The app-id index *)

(** [app_id_to_pkgs[app_id].insert(pkg)] *)
Definition index_insert (app_id : Z) (pkg : string)
    (idx : gmap Z (gset string)) : gmap Z (gset string) :=
  <[app_id := default ∅ (idx !! app_id) ∪ {[pkg]}]> idx.

(** The body of [if (remove) { ... }] in [update_pkg_uid]: erase [pkg] from
    the bucket of [app_id], and the bucket when that empties it. *)
Definition index_erase (app_id : Z) (pkg : string)
    (idx : gmap Z (gset string)) : gmap Z (gset string) :=
  match idx !! app_id with
  | Some pkgs =>
      let pkgs' := pkgs ∖ {[pkg]} in
      if decide (pkgs' = ∅) then delete app_id idx else <[app_id := pkgs']> idx
  | None => idx
  end.

(** [st.st_uid] after [xfstatat]: zero when the call failed. *)
Definition uid_or_zero (e : pkg_dir) : Z := default 0 (st_uid e).

(** One round of the inner loop of [update_uid_map].  [None] is the fault
    of looking into an absent [pkg_to_procs]. *)
Definition scan_pkg (store : option (gmap string (gset string)))
    (idx : gmap Z (gset string)) (e : pkg_dir) : option (gmap Z (gset string)) :=
  let app_id := to_app_id (uid_or_zero e) in
  if decide (is_Some (idx !! app_id)) then Some idx
  else match store with
       | None => None
       | Some m =>
           match m !! d_name e with
           | Some _ => Some (index_insert app_id (d_name e) idx)
           | None => Some idx
           end
       end.

Fixpoint scan_pkgs (store : option (gmap string (gset string)))
    (idx : gmap Z (gset string)) (es : list pkg_dir)
    : option (gmap Z (gset string)) :=
  match es with
  | [] => Some idx
  | e :: es' =>
      match scan_pkg store idx e with
      | Some idx' => scan_pkgs store idx' es'
      | None => None
      end
  end.

Fixpoint scan_users (store : option (gmap string (gset string)))
    (idx : gmap Z (gset string)) (us : list user_dir)
    : option (gmap Z (gset string)) :=
  match us with
  | [] => Some idx
  | u :: us' =>
      match user_entries u with
      | Some es =>
          match scan_pkgs store idx es with
          | Some idx' => scan_users store idx' us'
          | None => None
          end
      | None => scan_users store idx us'
      end
  end.

Definition update_uid_map (w : world) : M unit := fun s =>
  if pkg_xml_ino s =? packages_xml_ino w then Ret tt s
  else
    let s1 := set_pkg_xml_ino (packages_xml_ino w) s in
    match app_id_to_pkgs_ s1 with
    | None => Fault
    | Some _ =>
        let s2 := set_cached_manager_app_id (-1)
                    (set_app_id_to_pkgs (Some ∅) s1) in
        match app_data w with
        | None => Ret tt s2
        | Some us =>
            match scan_users (pkg_to_procs_ s2) ∅ us with
            | Some idx => Ret tt (set_app_id_to_pkgs (Some idx) s2)
            | None => Fault
            end
        end
    end.

(** [fstatat(dirfd(data_dir), "<user>/<pkg>", &st, 0)]: the uid when it
    returns zero. *)
Definition stat_pkg (u : user_dir) (pkg : string) : option Z :=
  match user_entries u with
  | Some es =>
      match List.find (fun e => str_eql (d_name e) pkg) es with
      | Some e => st_uid e
      | None => None
      end
  | None => None
  end.

(** The uid the loop of [update_pkg_uid] stops at: that of the first user
    under which [pkg] can be stat'ed. *)
Fixpoint first_owner (us : list user_dir) (pkg : string) : option Z :=
  match us with
  | [] => None
  | u :: us' =>
      match stat_pkg u pkg with
      | Some uid => Some uid
      | None => first_owner us' pkg
      end
  end.

Definition update_pkg_uid (pkg : string) (remove : bool) (w : world) : M unit :=
  fun s =>
  match app_data w with
  | None => Ret tt s
  | Some us =>
      match first_owner us pkg with
      | None => Ret tt s
      | Some uid =>
          let app_id := to_app_id uid in
          match app_id_to_pkgs_ s with
          | None => Fault
          | Some idx =>
              if remove
              then Ret tt (set_app_id_to_pkgs (Some (index_erase app_id pkg idx)) s)
              else Ret tt (set_app_id_to_pkgs (Some (index_insert app_id pkg idx)) s)
          end
      end
  end.

(** *** The process reaper *)

(** The path [proc_name_match] prints into [buf] before it opens it. *)
Definition cmdline_path (pid : Z) : string :=
  "/proc/" +:+ NilZero.string_of_int (Z.to_int pid) +:+ "/cmdline".

Definition proc_name_match (str_op : string -> string -> bool) (w : world)
    (pid : Z) (name : string) : bool :=
  match proc_cmdline w pid with
  | CannotOpen => false
  | NothingRead => str_op (cmdline_path pid) name   (* buf still holds the path *)
  | Line s => str_op s name
  end.

(** The loop of [crawl_procfs(DIR *, fn)]. *)
Fixpoint crawl (fn : Z -> M bool) (pids : list Z) : M unit :=
  match pids with
  | [] => ret tt
  | pid :: rest =>
      if 0 <? pid
      then let* go := fn pid in if go then crawl fn rest else ret tt
      else crawl fn rest
  end.

(** [crawl_procfs(fn)]: rewinds [procfp], which must be open. *)
Definition crawl_procfs (fn : Z -> M bool) (w : world) : M unit :=
  let* s := get in
  if procfp s then crawl fn (proc_pids w) else fault.

Definition kill_process (name : string) (multi : bool)
    (filter : Z -> string -> bool) (w : world) : M unit :=
  crawl_procfs
    (fun pid => if filter pid name then (emit (Kill pid) >> ret multi) else ret true)
    w.

(** *** The validator *)

(** The loop over [proc] when [pkg] is the reserved name. *)
Fixpoint validate_isolated_proc (proc : string) : bool :=
  match proc with
  | EmptyString => true
  | String c rest =>
      if isalnum c || Ascii.eqb c underscore || Ascii.eqb c dot
      then validate_isolated_proc rest
      else if Ascii.eqb c colon then true
      else false
  end.

(** The loop over [pkg] otherwise; [pkg_valid] is the flag as the loop
    reaches this character. *)
Fixpoint validate_pkg (pkg : string) (pkg_valid : bool) : bool :=
  match pkg with
  | EmptyString => pkg_valid
  | String c rest =>
      if isalnum c || Ascii.eqb c underscore then validate_pkg rest pkg_valid
      else if Ascii.eqb c dot then validate_pkg rest true
      else false
  end.

(** The loop over [proc] otherwise. *)
Fixpoint validate_proc (proc : string) : bool :=
  match proc with
  | EmptyString => true
  | String c rest =>
      if isalnum c || Ascii.eqb c underscore || Ascii.eqb c colon
         || Ascii.eqb c dot
      then validate_proc rest
      else false
  end.

Definition validate (pkg proc : string) : bool :=
  if str_eql pkg ISOLATED_MAGIC
  then true && validate_isolated_proc proc
  else validate_pkg pkg false && validate_proc proc.

(** *** The hide list *)

(** The set a [std::set<string>] holds, in the order a range-for visits. *)
Definition in_order (X : gset string) : list string :=
  merge_sort str_le (elements X).

(** [add_hide_set]; the result is [p.second], whether the pair is new. *)
Definition add_hide_set (pkg proc : string) (w : world) : M bool :=
  let* s := get in
  match pkg_to_procs_ s with
  | None => fault
  | Some m =>
      let procs := default ∅ (m !! pkg) in
      modify (set_pkg_to_procs (Some (<[pkg := procs ∪ {[proc]}]> m))) >>
      if bool_decide (proc ∈ procs) then ret false
      else
        (if str_eql pkg ISOLATED_MAGIC
         then kill_process proc true (proc_name_match str_starts w) w
         else kill_process proc false (proc_name_match str_eql w) w) >>
        ret true
  end.

(** The callback of the [SELECT] in [init_list], row after row. *)
Fixpoint load_rows (rows : list (string * string)) (w : world) : M unit :=
  match rows with
  | [] => ret tt
  | (pkg, proc) :: rest => add_hide_set pkg proc w >> load_rows rest w
  end.

Definition init_list (w : world) : M bool :=
  let* s := get in
  match pkg_to_procs_ s with
  | Some _ => ret true
  | None =>
      modify (set_pkg_to_procs (Some ∅)) >>
      emit (DbExec SelectHidelist) >>
      load_rows (db_hidelist w) w >>
      if db_select_fails w then ret false
      else
        modify (set_app_id_to_pkgs (Some ∅)) >>
        update_uid_map w >>
        ret true
  end.

Definition add_hide_list (pkg proc : string) (w : world) : M status :=
  let proc := if is_empty proc then pkg else proc in
  if negb (validate pkg proc) then ret HIDE_INVALID_PKG
  else
    let* ok := init_list w in
    if negb ok then ret DAEMON_ERROR
    else
      let* inserted := add_hide_set pkg proc w in
      if negb inserted then ret HIDE_ITEM_EXIST
      else
        (* [*p.first] is the element of the process set *)
        update_pkg_uid proc false w >>
        emit (DbExec (InsertHide pkg proc)) >>
        if db_write_fails w then ret DAEMON_ERROR else ret DAEMON_SUCCESS.

(** The locked block of [rm_hide_list]; the result is [remove]. *)
Definition rm_hide_set (pkg proc : string) (w : world) : M bool :=
  let* s := get in
  match pkg_to_procs_ s with
  | None => fault
  | Some m =>
      match m !! pkg with
      | Some procs =>
          if is_empty proc then
            update_pkg_uid pkg true w >>
            modify (set_pkg_to_procs (Some (delete pkg m))) >>
            ret true
          else if bool_decide (proc ∈ procs) then
            let procs' := procs ∖ {[proc]} in
            modify (set_pkg_to_procs (Some (<[pkg := procs']> m))) >>
            (if decide (procs' = ∅)
             then update_pkg_uid pkg true w >>
                  modify (set_pkg_to_procs (Some (delete pkg m)))
             else ret tt) >>
            ret true
          else ret false
      | None => ret false
      end
  end.

Definition rm_hide_list (pkg proc : string) (w : world) : M status :=
  let* ok := init_list w in
  if negb ok then ret DAEMON_ERROR
  else
    let* removed := rm_hide_set pkg proc w in
    if negb removed then ret HIDE_ITEM_NOT_EXIST
    else
      emit (DbExec (if is_empty proc then DeleteHidePkg pkg
                    else DeleteHide pkg proc)) >>
      if db_write_fails w then ret DAEMON_ERROR else ret DAEMON_SUCCESS.

(** *** Enabling and disabling *)

Definition webview_zygote : string := "webview_zygote".

Definition str_ends_safe (s ss : string) : bool :=
  if str_eql s webview_zygote then false else str_ends s ss.

Definition update_hide_config : M unit :=
  let* s := get in emit (DbExec (ReplaceHideConfig (hide_enabled s))).

(** The three sweeps of [launch_magiskhide] on Android Q and later. *)
Definition sweep_zygotes (w : world) : M unit :=
  kill_process "usap32" true (proc_name_match str_eql w) w >>
  kill_process "usap64" true (proc_name_match str_eql w) w >>
  kill_process "_zygote" true (proc_name_match str_ends_safe w) w.

Definition launch_magiskhide (late_props : bool) (w : world) : M status :=
  let* s := get in
  if hide_enabled s then ret DAEMON_SUCCESS
  else if negb (ns_mnt_exists w) then ret HIDE_NO_NS
  else if negb (procfp s) && negb (proc_dir_opens w) then ret DAEMON_ERROR
  else
    modify (set_procfp true) >>
    modify (set_hide_enabled true) >>
    let* ok := init_list w in
    if negb ok then modify (set_hide_enabled false) >> ret DAEMON_ERROR
    else
      (if 29 <=? SDK_INT w then sweep_zygotes w else ret tt) >>
      emit HideSensitiveProps >>
      (if late_props then emit HideLateSensitiveProps else ret tt) >>
      emit NewDaemonThread >>
      if thread_start_fails w then ret DAEMON_ERROR
      else
        update_uid_map w >>
        update_hide_config >>
        ret DAEMON_SUCCESS.

Definition stop_magiskhide : M status :=
  let* s := get in
  (if hide_enabled s
   then modify (set_pkg_to_procs None) >> modify (set_app_id_to_pkgs None)
   else ret tt) >>
  emit (PthreadKill SIGTERMTHRD) >>
  modify (set_hide_enabled false) >>
  update_hide_config >>
  ret DAEMON_SUCCESS.

(** *** The matcher *)

(** An [int] compared with a [size_t] is first converted to [size_t],
    taken here to have 64 bits; for an [int] that is not negative the
    width makes no difference. *)
Definition size_of_int (z : Z) : Z := z mod 2 ^ 64.

(** [s.length() > max_len] *)
Definition longer_than (s : string) (max_len : Z) : bool :=
  size_of_int max_len <? Z.of_nat (String.length s).

(** The two tests made on an element [s] in the regime of isolated
    processes. *)
Definition prefix_rule (process : string) (max_len : Z) (s : string) : bool :=
  longer_than s max_len && longer_than process max_len && str_starts s process
  || str_starts process s.

(** The two tests made on a package name [s] in the second loop of the
    normal regime. *)
Definition name_rule (process : string) (max_len : Z) (s : string) : bool :=
  longer_than s max_len && longer_than process max_len && str_starts s process
  || str_eql s process.

(** The first loop of the normal regime; [None] is the fault of reading
    through [end()]. *)
Fixpoint owned_procs_contain (m : gmap string (gset string))
    (process : string) (pkgs : list string) : option bool :=
  match pkgs with
  | [] => Some false
  | pkg :: rest =>
      match m !! pkg with
      | None => None
      | Some procs =>
          if bool_decide (process ∈ procs) then Some true
          else owned_procs_contain m process rest
      end
  end.

Definition is_hide_target (uid : Z) (process : string) (max_len : Z)
    (w : world) : M bool :=
  let* ok := init_list w in
  if negb ok then ret false
  else
    update_uid_map w >>
    let* s := get in
    let app_id := to_app_id uid in
    match pkg_to_procs_ s with
    | None => fault
    | Some m =>
        if 90000 <=? app_id then
          if existsb (prefix_rule process max_len)
               (in_order (default ∅ (m !! ISOLATED_MAGIC)))
          then ret true
          else
            match app_id_to_pkgs_ s with
            | None => fault
            | Some idx =>
                ret (existsb (prefix_rule process max_len)
                       (in_order (default ∅ (idx !! (-1)))))
            end
        else
          match app_id_to_pkgs_ s with
          | None => fault
          | Some idx =>
              match idx !! app_id with
              | None => ret false
              | Some pkgs =>
                  match owned_procs_contain m process (in_order pkgs) with
                  | None => fault
                  | Some true => ret true
                  | Some false =>
                      ret (existsb (name_rule process max_len) (in_order pkgs))
                  end
              end
          end
    end.

(** [check_uid_map]: [uid] and [process] are what the client sends. *)
Definition check_uid_map (uid : Z) (process : string) (w : world) : M Z :=
  let* s := get in
  if negb (hide_enabled s) then ret 0
  else
    let* hit := is_hide_target uid process DEFAULT_MAX_LEN w in
    ret (if hit then 1 else 0).

End Operations.

(** ** Vocabulary of the statements *)

Section Vocabulary.
Context `{Platform}.

(** [a] is a prefix of [b]. *)
Definition is_prefix (a b : string) : Prop := exists t, b = a +:+ t.

(** [s] has more than [n] characters. *)
Definition exceeds (s : string) (n : Z) : Prop := n < Z.of_nat (String.length s).

Definition chars (s : string) : list ascii := list_ascii_of_string s.

Definition all_chars (P : ascii -> bool) (s : string) : Prop :=
  forall c, In c (chars s) -> P c = true.

(** Letters, digits, underscore and dot. *)
Definition pkg_char (c : ascii) : bool :=
  isalnum c || Ascii.eqb c underscore || Ascii.eqb c dot.

(** Letters, digits, underscore, colon and dot. *)
Definition proc_char (c : ascii) : bool :=
  isalnum c || Ascii.eqb c underscore || Ascii.eqb c colon || Ascii.eqb c dot.

(** The characters in front of the first colon; all of them when there is
    no colon. *)
Fixpoint before_colon (s : string) : string :=
  match s with
  | EmptyString => EmptyString
  | String c rest =>
      if Ascii.eqb c colon then EmptyString else String c (before_colon rest)
  end.

(** The two grammars in the words of the description of the validator. *)
Definition described_grammar (pkg proc : string) : Prop :=
  (pkg = ISOLATED_MAGIC /\ all_chars pkg_char (before_colon proc))
  \/ (pkg <> ISOLATED_MAGIC /\ all_chars pkg_char pkg /\ all_chars proc_char proc).

(** The two grammars the validator accepts. *)
Definition accepted_grammar (pkg proc : string) : Prop :=
  (pkg = ISOLATED_MAGIC /\ all_chars pkg_char (before_colon proc))
  \/ (pkg <> ISOLATED_MAGIC /\ all_chars pkg_char pkg /\ In dot (chars pkg)
      /\ all_chars proc_char proc).

(** The name [add_hide_list] works with. *)
Definition effective_proc (pkg proc : string) : string :=
  if is_empty proc then pkg else proc.


(** The pids [crawl_procfs] hands to its callback. *)
Definition live_pids (w : world) : list Z :=
  List.filter (fun pid => 0 <? pid) (proc_pids w).

(** The pids among them that pass [sel], and the first of them. *)
Definition all_matching (sel : Z -> bool) (w : world) : list Z :=
  List.filter sel (live_pids w).
Definition first_matching (sel : Z -> bool) (w : world) : list Z :=
  option_list (List.find sel (live_pids w)).

(** What one call of [kill_process] kills: every live pid that passes the
    filter, or only the first when [multi] is off. *)
Definition victims (multi : bool) (sel : Z -> bool) (w : world) : list Z :=
  if multi then all_matching sel w else first_matching sel w.


(** The patterns consulted for an isolated process. *)
Definition isolated_patterns (s : state) : gset string :=
  default ∅ (pkg_to_procs_ s ≫= (.!! ISOLATED_MAGIC))
  ∪ default ∅ (app_id_to_pkgs_ s ≫= (.!! (-1))).

(** The matching rule in the words of the description of the matcher. *)
Definition described_match (process : string) (max_len : Z) (p : string) : Prop :=
  (exceeds p max_len /\ exceeds process max_len /\ is_prefix process p)
  \/ is_prefix process p.

(** The matching rule the matcher applies. *)
Definition applied_match (process : string) (max_len : Z) (p : string) : Prop :=
  (exceeds p max_len /\ exceeds process max_len /\ is_prefix process p)
  \/ is_prefix p process.

(** The package directories in the order [update_uid_map] meets them. *)
Definition walk (us : list user_dir) : list pkg_dir :=
  List.concat (List.map (fun u => default [] (user_entries u)) us).

Definition owner_app_id (e : pkg_dir) : Z := to_app_id (uid_or_zero e).

(** The first directory on the walk that belongs to [app_id] and is named
    like a hidden package. *)
Definition first_hidden (m : gmap string (gset string)) (app_id : Z)
    (es : list pkg_dir) : option pkg_dir :=
  List.find (fun e => (owner_app_id e =? app_id)
                      && bool_decide (is_Some (m !! d_name e))) es.

(** The rebuilt index in the words of the description of the refresh:
    every directory named like a hidden package is filed under the app id
    of its owner, unless an earlier user already has a hidden package's
    directory with that app id. *)
Definition described_rebuild (m : gmap string (gset string))
    (us : list user_dir) (idx : gmap Z (gset string)) : Prop :=
  forall before u after es e,
    us = before ++ u :: after ->
    user_entries u = Some es ->
    In e es ->
    is_Some (m !! d_name e) ->
    first_hidden m (owner_app_id e) (walk before) = None ->
    d_name e ∈ default ∅ (idx !! owner_app_id e).

(** The index holds only names of packages of the hide list. *)
Definition index_in_store (s : state) : Prop :=
  forall m idx app_id pkgs pkg,
    pkg_to_procs_ s = Some m -> app_id_to_pkgs_ s = Some idx ->
    idx !! app_id = Some pkgs -> pkg ∈ pkgs -> is_Some (m !! pkg).




(** Both structures are built. *)
Definition initialized (s : state) : Prop :=
  is_Some (pkg_to_procs_ s) /\ is_Some (app_id_to_pkgs_ s).

(** The same world, with the given fate of INSERT and DELETE. *)
Definition with_db_write_fails (b : bool) (w : world) : world :=
  {| packages_xml_ino := packages_xml_ino w; app_data := app_data w;
     proc_pids := proc_pids w; proc_cmdline := proc_cmdline w;
     ns_mnt_exists := ns_mnt_exists w; proc_dir_opens := proc_dir_opens w;
     SDK_INT := SDK_INT w; db_hidelist := db_hidelist w;
     db_select_fails := db_select_fails w; db_write_fails := b;
     thread_start_fails := thread_start_fails w |}.

End Vocabulary.

(** ** A concrete platform and sample runs *)

Module Demo.

#[local] Instance platform : Platform :=
  {| ISOLATED_MAGIC := "isolated";
     to_app_id := fun uid => Z.rem uid 100000;
     DEFAULT_MAX_LEN := 1024 |}.

(** One user; [com.a] and [com.b] are installed and share a uid. *)
Definition home : list user_dir :=
  [ {| user_name := "0";
       user_entries := Some [ {| d_name := "com.a"; st_uid := Some 10001 |};
                              {| d_name := "com.b"; st_uid := Some 10001 |} ] |} ].

Definition cmdlines (pid : Z) : cmdline_read :=
  if pid =? 1 then Line "init"
  else if pid =? 2 then NothingRead
  else if pid =? 50 then Line "com.a"
  else if pid =? 60 then Line "com.a"
  else if pid =? 70 then Line "webview_zygote"
  else if pid =? 71 then Line "com.b_zygote"
  else if pid =? 80 then Line "com.c:sandboxed_process0"
  else CannotOpen.

Definition phone : world :=
  {| packages_xml_ino := 7; app_data := Some home;
     proc_pids := [-1; 1; 2; 50; 60; 70; 71; 80]; proc_cmdline := cmdlines;
     ns_mnt_exists := true; proc_dir_opens := true; SDK_INT := 30;
     db_hidelist := []; db_select_fails := false; db_write_fails := false;
     thread_start_fails := false |}.

(** The daemon once [launch_magiskhide] has run on [phone]. *)
Definition enabled : state :=
  {| pkg_to_procs_ := Some ∅; app_id_to_pkgs_ := Some ∅; hide_enabled := true;
     pkg_xml_ino := 7; cached_manager_app_id := -1; procfp := true;
     trace := [] |}.

(** A hide list with both packages, an empty index and a fingerprint that
    is out of date. *)
Definition hidden_ab : gmap string (gset string) :=
  {[ "com.a" := {[ "com.a" ]}; "com.b" := {[ "com.b" ]} ]}.

Definition stale : state :=
  {| pkg_to_procs_ := Some hidden_ab; app_id_to_pkgs_ := Some ∅;
     hide_enabled := true; pkg_xml_ino := 0; cached_manager_app_id := 10001;
     procfp := true; trace := [] |}.

(** Only the isolated processes of [com.a] are hidden. *)
Definition isolated_a : state :=
  {| pkg_to_procs_ := Some {[ "isolated" := {[ "com.a" ]} ]};
     app_id_to_pkgs_ := Some ∅; hide_enabled := true; pkg_xml_ino := 7;
     cached_manager_app_id := -1; procfp := true; trace := [] |}.

(** The phone while the database cannot be read to the end. *)
Definition broken_db : world :=
  {| packages_xml_ino := 7; app_data := Some home;
     proc_pids := [-1; 1; 2; 50; 60; 70; 71; 80]; proc_cmdline := cmdlines;
     ns_mnt_exists := true; proc_dir_opens := true; SDK_INT := 30;
     db_hidelist := [("com.a", "com.a")]; db_select_fails := true;
     db_write_fails := false; thread_start_fails := false |}.

(** The phone while the package registry cannot be stat'ed. *)
Definition no_registry : world :=
  {| packages_xml_ino := 0; app_data := Some home;
     proc_pids := [-1; 1; 2; 50; 60; 70; 71; 80]; proc_cmdline := cmdlines;
     ns_mnt_exists := true; proc_dir_opens := true; SDK_INT := 30;
     db_hidelist := []; db_select_fails := false; db_write_fails := false;
     thread_start_fails := false |}.

(** The phone after [com.a] was uninstalled, the registry not yet
    rewritten. *)
Definition uninstalled : world :=
  {| packages_xml_ino := 7;
     app_data := Some [ {| user_name := "0";
                           user_entries :=
                             Some [ {| d_name := "com.b"; st_uid := Some 10001 |} ] |} ];
     proc_pids := [-1; 1; 2; 70; 71; 80]; proc_cmdline := cmdlines;
     ns_mnt_exists := true; proc_dir_opens := true; SDK_INT := 30;
     db_hidelist := []; db_select_fails := false; db_write_fails := false;
     thread_start_fails := false |}.


End Demo.

(** ** Listing the hide list *)

(** What [ls_hide_list] sends to its client, in order. *)
Inductive client_write : Set :=
  | WriteStatus (st : status)      (* write_int(client, <status code>) *)
  | WriteInt (n : Z)               (* write_int(client, n) *)
  | XWrite (bytes : string)        (* xwrite(client, data, size) *)
  | CloseClient.                   (* close(client) *)

Section Listing.
Context `{Platform}.

(** A [size_t] handed to [write_int], which takes an [int]. *)
Definition int_of_size (n : Z) : Z := (n + 2 ^ 31) mod 2 ^ 32 - 2 ^ 31.

(** The four writes of the inner loop body of [ls_hide_list]. *)
Definition ls_record (entry : string * string) : list client_write :=
  let (pkg, proc) := entry in
  [ WriteInt (int_of_size (Z.of_nat (String.length pkg)
                           + Z.of_nat (String.length proc) + 1));
    XWrite pkg; XWrite "|"; XWrite proc ].

(** The pairs the two nested range-for loops visit. *)
Definition ls_pairs (m : gmap string (gset string)) : list (string * string) :=
  List.flat_map
    (fun pkg => List.map (pair pkg) (in_order (default ∅ (m !! pkg))))
    (in_order (dom m)).

Definition ls_hide_list (w : world) : M (list client_write) :=
  let* ok := init_list w in
  if negb ok then ret [WriteStatus DAEMON_ERROR]
  else
    let* s := get in
    match pkg_to_procs_ s with
    | None => fault
    | Some m =>
        ret (WriteStatus DAEMON_SUCCESS
             :: List.flat_map ls_record (ls_pairs m)
             ++ [WriteInt 0; CloseClient])
    end.

(** ** Further words for statements *)

(** The pair is on the hide list. *)
Definition hides (s : state) (pkg proc : string) : Prop :=
  exists m, pkg_to_procs_ s = Some m /\ proc ∈ default ∅ (m !! pkg).

(** No package of the hide list is left with an empty process set. *)
Definition no_empty_package (s : state) : Prop :=
  forall m pkg procs,
    pkg_to_procs_ s = Some m -> m !! pkg = Some procs -> procs <> ∅.

(** The package names filed under an app id. *)
Definition bucket (s : state) (app_id : Z) : gset string :=
  default ∅ (app_id_to_pkgs_ s ≫= (.!! app_id)).


End Listing.

(** Further sample data. *)
Module Samples.

(** The hide list holds [com.a] with two processes; the index files it. *)
Definition hiding_a : state :=
  {| pkg_to_procs_ := Some {[ "com.a" := {[ "com.a"; "com.a:push" ]} ]};
     app_id_to_pkgs_ := Some {[ 10001 := {[ "com.a" ]} ]};
     hide_enabled := true; pkg_xml_ino := 7; cached_manager_app_id := -1;
     procfp := true; trace := [] |}.

(** The phone with two rows in the database. *)
Definition with_rows : world :=
  {| packages_xml_ino := 7; app_data := Some Demo.home;
     proc_pids := [-1; 1; 2; 50; 60; 70; 71; 80]; proc_cmdline := Demo.cmdlines;
     ns_mnt_exists := true; proc_dir_opens := true; SDK_INT := 30;
     db_hidelist := [("com.a", "com.a"); ("com.b", "com.b:bg")];
     db_select_fails := false; db_write_fails := false;
     thread_start_fails := false |}.

(** The same phone when the monitor thread cannot be started. *)
Definition no_thread : world :=
  {| packages_xml_ino := 7; app_data := Some Demo.home;
     proc_pids := [-1; 1; 2; 50; 60; 70; 71; 80]; proc_cmdline := Demo.cmdlines;
     ns_mnt_exists := true; proc_dir_opens := true; SDK_INT := 30;
     db_hidelist := [("com.a", "com.a"); ("com.b", "com.b:bg")];
     db_select_fails := false; db_write_fails := false;
     thread_start_fails := true |}.

(** The hide list built by an [add] before the daemon ever opened [/proc]. *)
Definition never_launched : state :=
  {| pkg_to_procs_ := Some ∅; app_id_to_pkgs_ := Some ∅; hide_enabled := false;
     pkg_xml_ino := 7; cached_manager_app_id := -1; procfp := false;
     trace := [] |}.

(** The phone on a kernel without mount namespaces. *)
Definition no_namespace : world :=
  {| packages_xml_ino := 7; app_data := Some Demo.home;
     proc_pids := [-1; 1; 2; 50; 60; 70; 71; 80]; proc_cmdline := Demo.cmdlines;
     ns_mnt_exists := false; proc_dir_opens := true; SDK_INT := 30;
     db_hidelist := [("com.a", "com.a")]; db_select_fails := false;
     db_write_fails := false; thread_start_fails := false |}.

(** The phone when [/proc] cannot be opened. *)
Definition no_proc : world :=
  {| packages_xml_ino := 7; app_data := Some Demo.home;
     proc_pids := []; proc_cmdline := Demo.cmdlines;
     ns_mnt_exists := true; proc_dir_opens := false; SDK_INT := 30;
     db_hidelist := [("com.a", "com.a")]; db_select_fails := false;
     db_write_fails := false; thread_start_fails := false |}.

End Samples.

(** * Properties *)

(** Closes a goal about a concrete run by running it. *)
Ltac by_running := vm_compute; reflexivity.

(** ** Strings *)

Section StringFacts.

Lemma str_eql_eq s ss : str_eql s ss = true <-> s = ss.
Proof. unfold str_eql. apply String.eqb_eq. Qed.

Lemma str_eql_refl s : str_eql s s = true.
Proof. apply str_eql_eq. reflexivity. Qed.

Lemma str_eql_neq s ss : str_eql s ss = false <-> s <> ss.
Proof. unfold str_eql. apply String.eqb_neq. Qed.

Lemma str_starts_spec s ss :
  str_starts s ss = true <-> exists t, s = ss +:+ t.
Proof.
  revert s. induction ss as [|c ss IH]; intros s; simpl.
  - split; [intros _; exists s; reflexivity | reflexivity].
  - destruct s as [|d s].
    + split; [discriminate | intros [t Ht]; discriminate].
    + rewrite andb_true_iff, Ascii.eqb_eq, IH. split.
      * intros [-> [t ->]]. exists t. reflexivity.
      * intros [t Ht]. injection Ht as -> ->. split; [reflexivity | eauto].
Qed.

Lemma str_starts_refl s : str_starts s s = true.
Proof.
  induction s as [|c s IH]; simpl; [reflexivity|].
  rewrite Ascii.eqb_refl. exact IH.
Qed.

Lemma str_starts_length s ss :
  str_starts s ss = true -> (String.length ss <= String.length s)%nat.
Proof.
  revert s. induction ss as [|c ss IH]; intros [|d s]; simpl; intros H;
    try lia; try discriminate H.
  apply andb_true_iff in H as [_ H]. apply IH in H. lia.
Qed.

Lemma str_starts_prefix s ss : str_starts s ss = true <-> is_prefix ss s.
Proof. apply str_starts_spec. Qed.


Lemma all_chars_nil P : all_chars P EmptyString.
Proof. intros c []. Qed.

Lemma all_chars_cons P c s :
  all_chars P (String c s) <-> P c = true /\ all_chars P s.
Proof.
  unfold all_chars, chars. simpl. split.
  - intros Hall. split; [apply Hall; left; reflexivity|].
    intros d Hd. apply Hall. right. exact Hd.
  - intros [Hc Hs] d [<-|Hd]; [exact Hc | apply Hs, Hd].
Qed.

End StringFacts.

(** ** The validator *)

Section ValidatorFacts.
Context `{Platform}.

Lemma pkg_char_not_colon c : pkg_char c = true -> Ascii.eqb c colon = false.
Proof.
  destruct (Ascii.eqb_spec c colon) as [->|]; [|reflexivity].
  vm_compute. intros E. discriminate E.
Qed.

Lemma word_char_not_dot c :
  isalnum c || Ascii.eqb c underscore = true -> Ascii.eqb c dot = false.
Proof.
  destruct (Ascii.eqb_spec c dot) as [->|]; [|reflexivity].
  vm_compute. intros E. discriminate E.
Qed.

Lemma validate_isolated_proc_spec proc :
  validate_isolated_proc proc = true <-> all_chars pkg_char (before_colon proc).
Proof.
  induction proc as [|c proc IH]; simpl.
  - split; [intros _; apply all_chars_nil | reflexivity].
  - fold (pkg_char c). destruct (pkg_char c) eqn:Hc.
    + rewrite (pkg_char_not_colon c Hc), all_chars_cons, IH. tauto.
    + destruct (Ascii.eqb c colon) eqn:Hcol.
      * split; [intros _; apply all_chars_nil | reflexivity].
      * rewrite all_chars_cons, Hc. split; [discriminate | intros [E _]; discriminate E].
Qed.

Lemma validate_pkg_spec pkg flag :
  validate_pkg pkg flag = true
  <-> all_chars pkg_char pkg /\ (flag = true \/ In dot (chars pkg)).
Proof.
  revert flag. induction pkg as [|c pkg IH]; intros flag; simpl.
  - split.
    + intros ->. split; [apply all_chars_nil | left; reflexivity].
    + intros [_ [E|[]]]. exact E.
  - rewrite all_chars_cons. unfold pkg_char at 1.
    destruct (isalnum c || Ascii.eqb c underscore) eqn:Hw; simpl.
    + pose proof (word_char_not_dot c Hw) as Hnd.
      rewrite IH. split.
      * intros [Hall [Hf|Hd]]; repeat split; auto.
      * intros [[_ Hall] [Hf|[Hd|Hd]]]; split; auto.
        subst c. vm_compute in Hnd. discriminate Hnd.
    + destruct (Ascii.eqb_spec c dot) as [->|Hnd].
      * rewrite IH. split.
        -- intros [Hall _]. repeat split; auto.
        -- intros [[_ Hall] _]. split; auto.
      * split; [discriminate | intros [[E _] _]; discriminate E].
Qed.

Lemma validate_proc_spec proc :
  validate_proc proc = true <-> all_chars proc_char proc.
Proof.
  induction proc as [|c proc IH]; simpl.
  - split; [intros _; apply all_chars_nil | reflexivity].
  - rewrite all_chars_cons. fold (proc_char c). destruct (proc_char c).
    + rewrite IH. tauto.
    + split; [discriminate | intros [E _]; discriminate E].
Qed.

Lemma validate_spec pkg proc : validate pkg proc = true <-> accepted_grammar pkg proc.
Proof.
  unfold validate, accepted_grammar.
  destruct (str_eql pkg ISOLATED_MAGIC) eqn:E.
  - apply str_eql_eq in E. simpl. rewrite validate_isolated_proc_spec.
    split; [intros Hp; left; auto | intros [[_ Hp]|[Hne _]]; [exact Hp | contradiction]].
  - apply str_eql_neq in E.
    rewrite andb_true_iff, validate_pkg_spec, validate_proc_spec. split.
    + intros [[Hall [Hf|Hd]] Hp]; [discriminate Hf|]. right. auto.
    + intros [[Heq _]|[_ [Hall [Hd Hp]]]]; [contradiction | auto].
Qed.

Lemma validate_space_before_colon proc :
  In " "%char (chars (before_colon proc)) -> validate ISOLATED_MAGIC proc = false.
Proof.
  intros Hsp. destruct (validate ISOLATED_MAGIC proc) eqn:E; [|reflexivity].
  apply validate_spec in E as [[_ Hall]|[Hne _]]; [|contradiction].
  apply Hall in Hsp. vm_compute in Hsp. discriminate Hsp.
Qed.

Lemma validate_space_in_pkg pkg proc :
  pkg <> ISOLATED_MAGIC -> In " "%char (chars pkg) -> validate pkg proc = false.
Proof.
  intros Hne Hsp. destruct (validate pkg proc) eqn:E; [|reflexivity].
  apply validate_spec in E as [[Heq _]|[_ [Hall _]]]; [contradiction|].
  apply Hall in Hsp. vm_compute in Hsp. discriminate Hsp.
Qed.

(** C6, as amended: [validate] accepts exactly two grammars.  For the
    reserved package name, the characters of [proc] in front of its first
    colon (all of [proc] without a colon) are letters, digits, underscores
    or dots.  For any other package name, [pkg] consists of letters,
    digits, underscores and dots and contains at least one dot, and [proc]
    consists of letters, digits, underscores, colons and dots.  So
    [com.foo.bar] with [com.foo.bar:remote] is accepted, [com foo] is
    rejected, a process name of the reserved package with a space in front
    of its colon is rejected, and the reserved package with [worker] is
    accepted. *)
Theorem C6_validate_grammar :
  (forall pkg proc, validate pkg proc = true <-> accepted_grammar pkg proc)
  /\ validate "com.foo.bar" "com.foo.bar:remote" = true
  /\ (ISOLATED_MAGIC <> "com foo" -> forall proc, validate "com foo" proc = false)
  /\ (forall proc, In " "%char (chars (before_colon proc)) ->
        validate ISOLATED_MAGIC proc = false)
  /\ validate ISOLATED_MAGIC "worker" = true.
Proof.
  split; [exact validate_spec|]. split; [|split; [|split]].
  - unfold validate. destruct (str_eql "com.foo.bar" ISOLATED_MAGIC); reflexivity.
  - intros Hne proc. apply validate_space_in_pkg; [congruence|].
    vm_compute. tauto.
  - exact validate_space_before_colon.
  - unfold validate. rewrite str_eql_refl. reflexivity.
Qed.

End ValidatorFacts.

Section ValidatorRuns.
#[local] Existing Instance Demo.platform.

(** The amended grammar at work on the sample platform: each hypothesis of
    the statement is met by a concrete name. *)
Lemma C6_validate_grammar_witness :
  (validate "com.foo.bar" "com.foo.bar:remote" = true
   <-> accepted_grammar "com.foo.bar" "com.foo.bar:remote")
  /\ validate "com foo" "com.foo" = false
  /\ validate "isolated" "a b:1" = false.
Proof.
  destruct (@C6_validate_grammar Demo.platform) as (Hiff & _ & Hpkg & Hproc & _).
  split; [apply Hiff|]. split.
  - apply Hpkg. simpl. intros E. discriminate E.
  - apply (Hproc "a b:1"). vm_compute. tauto.
Defined.

(** C6, as stated, fails: [com] with process [com] fits the described
    grammar of a normal package (letters only), yet [validate] rejects it,
    because a package name without a dot is never valid. *)
Lemma C6_counterexample :
  described_grammar "com" "com" /\ validate "com" "com" = false.
Proof.
  split; [|reflexivity].
  right. split; [intros E; discriminate E|].
  split; intros c Hc; vm_compute in Hc;
    repeat (destruct Hc as [<-|Hc]; [reflexivity|]); destruct Hc.
Qed.

End ValidatorRuns.

(** ** The state record and the monad *)

Section StateFacts.

Lemma set_trace_same s : set_trace (trace s) s = s.
Proof. destruct s; reflexivity. Qed.

Lemma set_trace_twice t1 t2 s : set_trace t2 (set_trace t1 s) = set_trace t2 s.
Proof. reflexivity. Qed.

Lemma set_pkg_to_procs_same s m :
  pkg_to_procs_ s = Some m -> set_pkg_to_procs (Some m) s = s.
Proof. destruct s; simpl; intros ->; reflexivity. Qed.

Lemma set_trace_nil_r s : set_trace (trace s ++ []) s = s.
Proof. rewrite app_nil_r. apply set_trace_same. Qed.

End StateFacts.

(** ** The process reaper *)

Section ReaperFacts.
Context `{Platform}.

Lemma crawl_kills name multi (filter : Z -> string -> bool) pids s :
  crawl (fun pid => if filter pid name then emit (Kill pid) >> ret multi
                    else ret true) pids s
  = Ret tt (set_trace
              (trace s ++
               List.map Kill
                 (let live := List.filter (fun pid => 0 <? pid) pids in
                  if multi then List.filter (fun pid => filter pid name) live
                  else option_list (List.find (fun pid => filter pid name) live)))
              s).
Proof.
  revert s. induction pids as [|pid pids IH]; intros s; simpl.
  - destruct multi; simpl; unfold ret; rewrite set_trace_nil_r; reflexivity.
  - destruct (0 <? pid) eqn:Hpos; simpl; [|apply IH].
    unfold bind at 1. destruct (filter pid name) eqn:Hsel.
    + unfold bind, emit, modify, ret. simpl. destruct multi.
      * rewrite IH. simpl. rewrite <- app_assoc. reflexivity.
      * simpl. reflexivity.
    + unfold ret. rewrite IH. reflexivity.
Qed.

Lemma kill_process_kills name multi filter w s :
  procfp s = true ->
  kill_process name multi filter w s
  = Ret tt (set_trace
              (trace s ++ List.map Kill (victims multi (fun pid => filter pid name) w))
              s).
Proof.
  intros Hfp. unfold kill_process, crawl_procfs. unfold bind at 1.
  unfold get. rewrite Hfp, crawl_kills. unfold victims, all_matching, first_matching, live_pids.
  destruct multi; reflexivity.
Qed.

Lemma kill_process_no_procfp name multi filter w s :
  procfp s = false -> kill_process name multi filter w s = Fault.
Proof.
  intros Hfp. unfold kill_process, crawl_procfs. unfold bind at 1.
  unfold get. rewrite Hfp. reflexivity.
Qed.

Lemma str_ends_safe_webview ss : str_ends_safe webview_zygote ss = false.
Proof. unfold str_ends_safe. rewrite str_eql_refl. reflexivity. Qed.

Lemma exact_sweep_spares name w pid :
  name <> webview_zygote ->
  proc_name_match str_eql w pid name = true ->
  proc_cmdline w pid <> Line webview_zygote.
Proof.
  intros Hname Hsel Hline. unfold proc_name_match in Hsel. rewrite Hline in Hsel.
  apply str_eql_eq in Hsel. congruence.
Qed.

Lemma suffix_sweep_spares ss w pid :
  proc_name_match str_ends_safe w pid ss = true ->
  proc_cmdline w pid <> Line webview_zygote.
Proof.
  intros Hsel Hline. unfold proc_name_match in Hsel. rewrite Hline in Hsel.
  rewrite str_ends_safe_webview in Hsel. discriminate Hsel.
Qed.

(** C10: the filter of the suffix sweep answers no for the command line
    [webview_zygote], whatever the suffix.  So, whatever the process table,
    the sweep for [_zygote] sends no kill to a process whose command line
    reads exactly [webview_zygote], and neither does the whole enable-time
    sweep ([usap32], [usap64], then [_zygote]). *)
Theorem C10_webview_zygote_survives :
  (forall ss, str_ends_safe webview_zygote ss = false)
  /\ (forall w s, procfp s = true ->
       exists killed,
         kill_process "_zygote" true (proc_name_match str_ends_safe w) w s
         = Ret tt (set_trace (trace s ++ List.map Kill killed) s)
         /\ forall pid, In pid killed -> proc_cmdline w pid <> Line webview_zygote)
  /\ (forall w s, procfp s = true ->
       exists killed,
         sweep_zygotes w s
         = Ret tt (set_trace (trace s ++ List.map Kill killed) s)
         /\ forall pid, In pid killed -> proc_cmdline w pid <> Line webview_zygote).
Proof.
  split; [exact str_ends_safe_webview|]. split.
  - intros w s Hfp. eexists. split; [apply kill_process_kills; exact Hfp|].
    intros pid Hin. unfold victims, all_matching in Hin.
    apply filter_In in Hin as [_ Hsel]. exact (suffix_sweep_spares _ w pid Hsel).
  - intros w s Hfp. unfold sweep_zygotes.
    unfold bind at 1. rewrite kill_process_kills by exact Hfp.
    unfold bind at 1. rewrite kill_process_kills by exact Hfp.
    rewrite kill_process_kills by exact Hfp.
    rewrite !set_trace_twice. simpl trace.
    exists (victims true (fun pid => proc_name_match str_eql w pid "usap32") w
            ++ victims true (fun pid => proc_name_match str_eql w pid "usap64") w
            ++ victims true
                 (fun pid => proc_name_match str_ends_safe w pid "_zygote") w).
    split.
    + rewrite !List.map_app, <- !app_assoc. reflexivity.
    + intros pid Hin. unfold victims, all_matching in Hin.
      rewrite !in_app_iff, !filter_In in Hin.
      destruct Hin as [[_ Hsel]|[[_ Hsel]|[_ Hsel]]].
      * apply (exact_sweep_spares "usap32" w pid); [|exact Hsel].
        intros E. discriminate E.
      * apply (exact_sweep_spares "usap64" w pid); [|exact Hsel].
        intros E. discriminate E.
      * exact (suffix_sweep_spares _ w pid Hsel).
Qed.

End ReaperFacts.

Section ReaperRuns.
#[local] Existing Instance Demo.platform.

(** On the sample phone the sweep kills pid 71 ([com.b_zygote]) and spares
    pid 70 ([webview_zygote]). *)
Lemma C10_webview_zygote_survives_witness :
  procfp Demo.enabled = true
  /\ (exists killed,
        kill_process "_zygote" true (proc_name_match str_ends_safe Demo.phone)
          Demo.phone Demo.enabled
        = Ret tt (set_trace (trace Demo.enabled ++ List.map Kill killed) Demo.enabled)
        /\ forall pid, In pid killed ->
             proc_cmdline Demo.phone pid <> Line webview_zygote)
  /\ (exists killed,
        sweep_zygotes Demo.phone Demo.enabled
        = Ret tt (set_trace (trace Demo.enabled ++ List.map Kill killed) Demo.enabled)
        /\ forall pid, In pid killed ->
             proc_cmdline Demo.phone pid <> Line webview_zygote).
Proof.
  split; [reflexivity|]. split.
  - apply (proj1 (proj2 C10_webview_zygote_survives) Demo.phone Demo.enabled).
    reflexivity.
  - apply (proj2 (proj2 C10_webview_zygote_survives) Demo.phone Demo.enabled).
    reflexivity.
Defined.

Example sweep_on_phone :
  sweep_zygotes Demo.phone Demo.enabled = Ret tt (set_trace [Kill 71] Demo.enabled).
Proof. reflexivity. Qed.

End ReaperRuns.

(** ** Refreshing the app-id index *)

Section RefreshFacts.
Context `{Platform}.

Lemma scan_pkgs_app store idx es1 es2 :
  scan_pkgs store idx (es1 ++ es2)
  = match scan_pkgs store idx es1 with
    | Some idx' => scan_pkgs store idx' es2
    | None => None
    end.
Proof.
  revert idx. induction es1 as [|e es1 IH]; intros idx; simpl; [reflexivity|].
  destruct (scan_pkg store idx e); [apply IH | reflexivity].
Qed.

Lemma scan_users_walk store idx us :
  scan_users store idx us = scan_pkgs store idx (walk us).
Proof.
  revert idx. induction us as [|u us IH]; intros idx; simpl; [reflexivity|].
  unfold walk. simpl. fold (walk us).
  destruct (user_entries u) as [es|]; simpl; [|apply IH].
  rewrite scan_pkgs_app. destruct (scan_pkgs store idx es); [apply IH | reflexivity].
Qed.

(** What the inner loop leaves in each bucket: a bucket that exists is
    kept; the others go to the first hidden package met for that app id. *)
Lemma scan_pkgs_buckets m acc es :
  exists idx,
    scan_pkgs (Some m) acc es = Some idx
    /\ forall a, idx !! a
                 = match acc !! a with
                   | Some pkgs => Some pkgs
                   | None => (fun e => {[d_name e]}) <$> first_hidden m a es
                   end.
Proof.
  revert acc. induction es as [|e es IH]; intros acc; simpl.
  - exists acc. split; [reflexivity|]. intros a. destruct (acc !! a); reflexivity.
  - unfold scan_pkg. fold (owner_app_id e).
    destruct (decide (is_Some (acc !! owner_app_id e))) as [Hsome|Hnone].
    + destruct (IH acc) as (idx & Hrun & Hidx). exists idx. split; [exact Hrun|].
      intros a. rewrite Hidx. destruct (acc !! a) eqn:Ha; [reflexivity|].
      unfold first_hidden. simpl.
      destruct (Z.eqb_spec (owner_app_id e) a) as [E|Hne]; [|reflexivity].
      rewrite E, Ha in Hsome. destruct Hsome as [? Habs]. discriminate Habs.
    + apply eq_None_not_Some in Hnone.
      destruct (m !! d_name e) as [procs|] eqn:Hm.
      * destruct (IH (index_insert (owner_app_id e) (d_name e) acc))
          as (idx & Hrun & Hidx).
        exists idx. split; [exact Hrun|]. intros a. rewrite Hidx.
        unfold index_insert, first_hidden. simpl. rewrite Hnone. simpl.
        destruct (Z.eqb_spec (owner_app_id e) a) as [<-|Hne].
        -- rewrite lookup_insert_eq, Hnone. simpl.
           f_equal. apply (left_id_L ∅ (∪)).
        -- rewrite lookup_insert_ne by exact Hne. reflexivity.
      * destruct (IH acc) as (idx & Hrun & Hidx). exists idx.
        split; [exact Hrun|]. intros a. rewrite Hidx.
        destruct (acc !! a); [reflexivity|]. unfold first_hidden. simpl.
        rewrite andb_false_r. reflexivity.
Qed.

Lemma update_uid_map_unchanged w s :
  pkg_xml_ino s = packages_xml_ino w -> update_uid_map w s = Ret tt s.
Proof. intros E. unfold update_uid_map. rewrite E, Z.eqb_refl. reflexivity. Qed.

Lemma update_uid_map_fingerprint w s s' :
  update_uid_map w s = Ret tt s' -> pkg_xml_ino s' = packages_xml_ino w.
Proof.
  unfold update_uid_map.
  destruct (Z.eqb_spec (pkg_xml_ino s) (packages_xml_ino w)) as [E|_].
  - intros [= <-]. exact E.
  - simpl. destruct (app_id_to_pkgs_ s); [|discriminate].
    destruct (app_data w); [|intros [= <-]; reflexivity].
    destruct (scan_users _ _ _); [|discriminate]. intros [= <-]. reflexivity.
Qed.

Lemma update_uid_map_rebuilds w s m idx :
  pkg_xml_ino s <> packages_xml_ino w ->
  pkg_to_procs_ s = Some m -> app_id_to_pkgs_ s = Some idx ->
  exists idx',
    update_uid_map w s
    = Ret tt (set_app_id_to_pkgs (Some idx')
                (set_cached_manager_app_id (-1)
                   (set_pkg_xml_ino (packages_xml_ino w) s)))
    /\ forall a, idx' !! a
                 = (fun e => {[d_name e]})
                   <$> first_hidden m a (walk (default [] (app_data w))).
Proof.
  intros Hne Hm Hidx. unfold update_uid_map.
  destruct (Z.eqb_spec (pkg_xml_ino s) (packages_xml_ino w)) as [E|_];
    [contradiction|].
  simpl. rewrite Hidx, Hm. destruct (app_data w) as [us|]; simpl.
  - rewrite scan_users_walk.
    destruct (scan_pkgs_buckets m ∅ (walk us)) as (idx' & -> & Hb).
    exists idx'. split; [reflexivity|]. intros a. rewrite Hb, lookup_empty.
    reflexivity.
  - exists ∅. split; [reflexivity|]. intros a. apply lookup_empty.
Qed.

(** A refresh of built structures never faults and leaves the hide list,
    the flag, the handle and the trace alone. *)
Lemma update_uid_map_runs w s m idx :
  pkg_to_procs_ s = Some m -> app_id_to_pkgs_ s = Some idx ->
  exists s' idx',
    update_uid_map w s = Ret tt s'
    /\ pkg_to_procs_ s' = Some m /\ app_id_to_pkgs_ s' = Some idx'
    /\ hide_enabled s' = hide_enabled s /\ procfp s' = procfp s
    /\ trace s' = trace s.
Proof.
  intros Hm Hidx.
  destruct (Z.eq_dec (pkg_xml_ino s) (packages_xml_ino w)) as [E|Hne].
  - exists s, idx. rewrite update_uid_map_unchanged by exact E.
    repeat split; auto.
  - destruct (update_uid_map_rebuilds w s m idx Hne Hm Hidx) as (idx' & -> & _).
    eexists _, idx'. split; [reflexivity|]. simpl. repeat split; auto.
Qed.

(** C5, as amended: [update_uid_map] is gated by the registry fingerprint.
    When the inode of the registry equals the cached one it changes
    nothing, and a refresh right after a refresh changes nothing.  When the
    inode differs it stores the new inode, sets the cached manager app id
    to [-1], and replaces the index by the one the walk over the app data
    directories builds: each app id is filed with one package only, the
    first directory on the walk (users in order, entries in order) that is
    owned by that app id and named like a package of the hide list; later
    directories of an app id that already has a bucket are skipped, under
    the same user as well. *)
Theorem C5_update_uid_map_gated w s :
  (pkg_xml_ino s = packages_xml_ino w -> update_uid_map w s = Ret tt s)
  /\ (forall s', update_uid_map w s = Ret tt s' -> update_uid_map w s' = Ret tt s')
  /\ (pkg_xml_ino s <> packages_xml_ino w ->
      forall m idx,
        pkg_to_procs_ s = Some m -> app_id_to_pkgs_ s = Some idx ->
        exists idx',
          update_uid_map w s
          = Ret tt (set_app_id_to_pkgs (Some idx')
                      (set_cached_manager_app_id (-1)
                         (set_pkg_xml_ino (packages_xml_ino w) s)))
          /\ forall a, idx' !! a
                = (fun e => {[d_name e]})
                  <$> first_hidden m a (walk (default [] (app_data w)))).
Proof.
  split; [apply update_uid_map_unchanged|]. split.
  - intros s' Hrun. apply update_uid_map_unchanged.
    exact (update_uid_map_fingerprint w s s' Hrun).
  - intros Hne m idx. apply update_uid_map_rebuilds. exact Hne.
Qed.

End RefreshFacts.

Section RefreshRuns.
#[local] Existing Instance Demo.platform.

(** Both regimes of the refresh on the sample phone: the fingerprint of
    [Demo.enabled] is current, that of [Demo.stale] is not. *)
Lemma C5_update_uid_map_gated_witness :
  update_uid_map Demo.phone Demo.enabled = Ret tt Demo.enabled
  /\ exists idx',
       update_uid_map Demo.phone Demo.stale
       = Ret tt (set_app_id_to_pkgs (Some idx')
                   (set_cached_manager_app_id (-1)
                      (set_pkg_xml_ino (packages_xml_ino Demo.phone) Demo.stale)))
       /\ forall a, idx' !! a
             = (fun e => {[d_name e]})
               <$> first_hidden Demo.hidden_ab a
                     (walk (default [] (app_data Demo.phone))).
Proof.
  split.
  - apply (proj1 (C5_update_uid_map_gated Demo.phone Demo.enabled)). reflexivity.
  - apply (proj2 (proj2 (C5_update_uid_map_gated Demo.phone Demo.stale)))
      with (idx := ∅); [simpl; lia | reflexivity | reflexivity].
Defined.

(** C5, as stated, fails: [com.a] and [com.b] are both on the hide list and
    both directories, under the first and only user, are owned by app id
    10001; the rebuilt index files [com.a] alone under 10001, and [com.b]
    under nothing. *)
Lemma C5_counterexample :
  exists s' idx',
    update_uid_map Demo.phone Demo.stale = Ret tt s'
    /\ app_id_to_pkgs_ s' = Some idx'
    /\ idx' = {[ 10001 := {[ "com.a" ]} ]}
    /\ ~ described_rebuild Demo.hidden_ab Demo.home idx'.
Proof.
  eexists _, {[ 10001 := {[ "com.a" ]} ]}.
  split; [by_running|].
  split; [by_running|]. split; [reflexivity|].
  intros Hd.
  specialize (Hd [] {| user_name := "0";
                       user_entries :=
                         Some [ {| d_name := "com.a"; st_uid := Some 10001 |};
                                {| d_name := "com.b"; st_uid := Some 10001 |} ] |}
                 [] _ {| d_name := "com.b"; st_uid := Some 10001 |}
                 eq_refl eq_refl).
  revert Hd. intros Hd.
  assert (Hin : "com.b"
                ∈ default (∅ : gset string)
                    (({[ 10001 := {[ "com.a" ]} ]} : gmap Z (gset string)) !! 10001)).
  { apply Hd; [right; left; reflexivity | | reflexivity].
    exists {[ "com.b" ]}. vm_compute. reflexivity. }
  revert Hin. apply (proj1 (bool_decide_eq_false _)). vm_compute. reflexivity.
Qed.

End RefreshRuns.

(** ** The hide list *)

Section ListFacts.
Context `{Platform}.

Lemma init_list_ready w s m : pkg_to_procs_ s = Some m -> init_list w s = Ret true s.
Proof. intros Hm. unfold init_list, bind, get. rewrite Hm. reflexivity. Qed.

(** C8: with the flag off, [check_uid_map] answers 0 and leaves the state
    as it was: nothing is initialised, refreshed, looked up or traced.
    With the flag on, it runs [is_hide_target] with the default prefix
    length and answers 1 or 0 as that says true or false. *)
Theorem C8_check_uid_map_gate uid process w s :
  (hide_enabled s = false -> check_uid_map uid process w s = Ret 0 s)
  /\ (hide_enabled s = true ->
      check_uid_map uid process w s
      = match is_hide_target uid process DEFAULT_MAX_LEN w s with
        | Ret hit s' => Ret (if hit then 1 else 0) s'
        | Fault => Fault
        end).
Proof.
  unfold check_uid_map. split; intros Hflag; unfold bind at 1; unfold get;
    rewrite Hflag; simpl; [reflexivity|].
  unfold bind. destruct (is_hide_target uid process DEFAULT_MAX_LEN w s); reflexivity.
Qed.

End ListFacts.

Section GateRuns.
#[local] Existing Instance Demo.platform.

(** The probe before and after enabling, for a process of [com.a]. *)
Lemma C8_check_uid_map_gate_witness :
  check_uid_map 10001 "com.a" Demo.phone boot = Ret 0 boot
  /\ check_uid_map 10001 "com.a" Demo.phone Demo.enabled
     = match is_hide_target 10001 "com.a" DEFAULT_MAX_LEN Demo.phone Demo.enabled with
       | Ret hit s' => Ret (if hit then 1 else 0) s'
       | Fault => Fault
       end.
Proof.
  split.
  - apply (proj1 (C8_check_uid_map_gate 10001 "com.a" Demo.phone boot)). reflexivity.
  - apply (proj2 (C8_check_uid_map_gate 10001 "com.a" Demo.phone Demo.enabled)).
    reflexivity.
Defined.

End GateRuns.

(** ** A failing write to the database *)

Section PersistenceFacts.
Context `{Platform}.

Lemma add_hide_set_write b pkg proc w :
  add_hide_set pkg proc (with_db_write_fails b w) = add_hide_set pkg proc w.
Proof. reflexivity. Qed.

Lemma load_rows_write b rows w :
  load_rows rows (with_db_write_fails b w) = load_rows rows w.
Proof.
  induction rows as [|[pkg proc] rows IH]; simpl; [reflexivity|].
  rewrite IH, add_hide_set_write. reflexivity.
Qed.

Lemma init_list_write b w : init_list (with_db_write_fails b w) = init_list w.
Proof.
  unfold init_list. simpl. rewrite load_rows_write. reflexivity.
Qed.

Lemma update_pkg_uid_write b pkg remove w :
  update_pkg_uid pkg remove (with_db_write_fails b w) = update_pkg_uid pkg remove w.
Proof. reflexivity. Qed.

Lemma rm_hide_set_write b pkg proc w :
  rm_hide_set pkg proc (with_db_write_fails b w) = rm_hide_set pkg proc w.
Proof. reflexivity. Qed.

(** C7: when the INSERT of an [add] or the DELETE of a [remove] fails, the
    call answers [DAEMON_ERROR], and the daemon is left in exactly the
    state a successful call leaves: hide list, index and everything else;
    nothing is rolled back. *)
Theorem C7_write_failure_keeps_memory pkg proc w s s' :
  (add_hide_list pkg proc (with_db_write_fails false w) s = Ret DAEMON_SUCCESS s' ->
   add_hide_list pkg proc (with_db_write_fails true w) s = Ret DAEMON_ERROR s')
  /\ (rm_hide_list pkg proc (with_db_write_fails false w) s = Ret DAEMON_SUCCESS s' ->
      rm_hide_list pkg proc (with_db_write_fails true w) s = Ret DAEMON_ERROR s').
Proof.
  split.
  - unfold add_hide_list.
    rewrite !init_list_write, !add_hide_set_write, !update_pkg_uid_write.
    destruct (validate pkg (if is_empty proc then pkg else proc)); simpl;
      [|intros E; discriminate E].
    unfold bind, ret, emit, modify. 
    destruct (init_list w s) as [[] s1|]; simpl; try (intros E; discriminate E).
    destruct (add_hide_set _ _ w s1) as [[] s2|]; simpl;
      try (intros E; discriminate E).
    destruct (update_pkg_uid _ false w s2) as [[] s3|]; simpl;
      try (intros E; discriminate E).
    intros [= <-]. reflexivity.
  - unfold rm_hide_list. rewrite !init_list_write, !rm_hide_set_write.
    unfold bind, ret, emit, modify.
    destruct (init_list w s) as [[] s1|]; simpl; try (intros E; discriminate E).
    destruct (rm_hide_set _ _ w s1) as [[] s2|]; simpl;
      try (intros E; discriminate E).
    intros [= <-]. reflexivity.
Qed.

End PersistenceFacts.

Section PersistenceRuns.
#[local] Existing Instance Demo.platform.

(** Adding [com.a] on the sample phone, and removing it again, with and
    without a working database. *)
Lemma C7_write_failure_keeps_memory_witness :
  exists s1 s2,
    add_hide_list "com.a" "" (with_db_write_fails true Demo.phone) Demo.enabled
    = Ret DAEMON_ERROR s1
    /\ pkg_to_procs_ s1 = Some {[ "com.a" := {[ "com.a" ]} ]}
    /\ rm_hide_list "com.a" "" (with_db_write_fails true Demo.phone) s1
       = Ret DAEMON_ERROR s2
    /\ pkg_to_procs_ s2 = Some ∅.
Proof.
  eexists _, _. split; [|split; [|split]].
  - apply (proj1 (C7_write_failure_keeps_memory "com.a" "" Demo.phone Demo.enabled _)).
    vm_compute. reflexivity.
  - vm_compute. reflexivity.
  - apply (proj2 (C7_write_failure_keeps_memory "com.a" "" Demo.phone _ _)).
    vm_compute. reflexivity.
  - vm_compute. reflexivity.
Defined.

End PersistenceRuns.

(** ** Adding a pair *)

Section AddFacts.
Context `{Platform}.










Lemma add_hide_set_present pkg proc w s m :
  pkg_to_procs_ s = Some m -> proc ∈ default ∅ (m !! pkg) ->
  add_hide_set pkg proc w s = Ret false s.
Proof.
  intros Hm Hin. unfold add_hide_set. unfold bind at 1. unfold get. rewrite Hm.
  unfold bind, modify, ret. rewrite bool_decide_eq_true_2 by exact Hin.
  f_equal. apply set_pkg_to_procs_same. rewrite Hm. f_equal.
  destruct (m !! pkg) as [procs|] eqn:Hpkg; simpl in Hin;
    [|apply not_elem_of_empty in Hin; destruct Hin].
  symmetry. apply insert_id. simpl. rewrite Hpkg. f_equal.
  apply leibniz_equiv. intros x. rewrite elem_of_union, elem_of_singleton.
  split; [intros Hx; left; exact Hx | intros [Hx| ->]; assumption].
Qed.

Lemma add_hide_set_new pkg proc w s m :
  pkg_to_procs_ s = Some m -> procfp s = true ->
  proc ∉ default ∅ (m !! pkg) ->
  add_hide_set pkg proc w s
  = Ret true
      (set_trace
         (trace s ++
          List.map Kill
            (if str_eql pkg ISOLATED_MAGIC
             then victims true (fun pid => proc_name_match str_starts w pid proc) w
             else victims false (fun pid => proc_name_match str_eql w pid proc) w))
         (set_pkg_to_procs (Some (<[pkg := default ∅ (m !! pkg) ∪ {[proc]}]> m)) s)).
Proof.
  intros Hm Hfp Hnew. unfold add_hide_set. unfold bind at 1. unfold get.
  rewrite Hm. unfold bind at 1. unfold modify.
  rewrite bool_decide_eq_false_2 by exact Hnew.
  unfold bind, ret. destruct (str_eql pkg ISOLATED_MAGIC);
    rewrite kill_process_kills by exact Hfp; reflexivity.
Qed.



End AddFacts.

Section AddRuns.
#[local] Existing Instance Demo.platform.



End AddRuns.

(** ** The matcher *)

Section MatchFacts.
Context `{Platform}.

Lemma existsb_in_order (f : string -> bool) (X : gset string) :
  existsb f (in_order X) = true <-> exists p, p ∈ X /\ f p = true.
Proof.
  rewrite existsb_exists. unfold in_order. split.
  - intros (p & Hin & Hf). exists p. split; [|exact Hf].
    apply list_elem_of_In in Hin. rewrite merge_sort_Permutation in Hin.
    apply elem_of_elements in Hin. exact Hin.
  - intros (p & Hin & Hf). exists p. split; [|exact Hf].
    apply list_elem_of_In. rewrite merge_sort_Permutation.
    apply elem_of_elements. exact Hin.
Qed.

Lemma longer_than_exceeds s max_len :
  0 <= max_len < 2 ^ 31 -> longer_than s max_len = true <-> exceeds s max_len.
Proof.
  intros Hrange. unfold longer_than, exceeds, size_of_int.
  rewrite Z.mod_small by lia. apply Z.ltb_lt.
Qed.

Lemma prefix_rule_applied process max_len p :
  0 <= max_len < 2 ^ 31 ->
  prefix_rule process max_len p = true <-> applied_match process max_len p.
Proof.
  intros Hrange. unfold prefix_rule, applied_match.
  rewrite orb_true_iff, !andb_true_iff, !longer_than_exceeds by exact Hrange.
  rewrite !str_starts_prefix. tauto.
Qed.

Lemma is_prefix_length a b : is_prefix a b -> (String.length a <= String.length b)%nat.
Proof. intros Hp. apply str_starts_length, str_starts_prefix, Hp. Qed.

Lemma is_prefix_antisym a b : is_prefix a b -> is_prefix b a -> a = b.
Proof.
  intros Hab Hba. pose proof (is_prefix_length _ _ Hba) as Hlen.
  destruct Hab as [t ->]. revert Hlen. clear Hba.
  induction a as [|c a IH]; simpl.
  - destruct t; simpl; [reflexivity | lia].
  - intros Hlen. change (String c a = String c (a +:+ t)).
    f_equal. apply IH. lia.
Qed.

(** C1, as amended: for a uid whose app id is 90000 or more, with both
    structures built and a prefix length in the range of a non-negative
    [int], [is_hide_target] refreshes the index and then answers true if
    and only if some pattern [p], taken from the process set of the
    reserved package or from bucket [-1] of the index, satisfies
    (i) [p] and the process name both have more than [max_len] characters
    and the process name is a prefix of [p], or
    (ii) [p] is a prefix of the process name, whatever the lengths.
    In particular a pattern of which the process name is a proper prefix (a
    truncated name) matches only when both have more than [max_len]
    characters. *)
Theorem C1_is_hide_target_isolated uid process max_len w s :
  initialized s -> 0 <= max_len < 2 ^ 31 -> 90000 <= to_app_id uid ->
  exists hit s',
    is_hide_target uid process max_len w s = Ret hit s'
    /\ update_uid_map w s = Ret tt s'
    /\ (hit = true
        <-> exists p, p ∈ isolated_patterns s' /\ applied_match process max_len p)
    /\ (forall p, is_prefix process p -> p <> process ->
          (applied_match process max_len p
           <-> exceeds p max_len /\ exceeds process max_len)).
Proof.
  intros [[m Hm] [idx Hidx]] Hrange Hiso.
  destruct (update_uid_map_runs w s m idx Hm Hidx)
    as (s' & idx' & Hupd & Hm' & Hidx' & _).
  assert (Hpat : forall p,
             p ∈ isolated_patterns s'
             <-> p ∈ default ∅ (m !! ISOLATED_MAGIC) \/ p ∈ default ∅ (idx' !! (-1))).
  { intros p. unfold isolated_patterns. rewrite Hm', Hidx'. simpl.
    apply elem_of_union. }
  assert (Hrun : is_hide_target uid process max_len w s
                 = Ret (existsb (prefix_rule process max_len)
                          (in_order (default ∅ (m !! ISOLATED_MAGIC)))
                        || existsb (prefix_rule process max_len)
                             (in_order (default ∅ (idx' !! (-1))))) s').
  { unfold is_hide_target. unfold bind at 1. rewrite (init_list_ready w s m Hm).
    simpl. unfold bind at 1. rewrite Hupd. unfold bind at 1. unfold get.
    rewrite Hm'. rewrite (proj2 (Z.leb_le _ _) Hiso).
    destruct (existsb _ (in_order (default ∅ (m !! ISOLATED_MAGIC))));
      [reflexivity|].
    rewrite Hidx'. reflexivity. }
  eexists _, s'. split; [exact Hrun|]. split; [exact Hupd|]. split.
  - rewrite orb_true_iff, !existsb_in_order. split.
    + intros [(p & Hin & Hp)|(p & Hin & Hp)]; exists p;
        (split; [apply Hpat; auto | apply prefix_rule_applied; assumption]).
    + intros (p & Hin & Hp). apply Hpat in Hin.
      apply (prefix_rule_applied _ _ _ Hrange) in Hp.
      destruct Hin as [Hin|Hin]; [left | right]; exists p; auto.
  - intros p Hpre Hne. unfold applied_match. split.
    + intros [(Hp & Hq & _)|Hrev]; [auto|].
      exfalso. apply Hne. apply is_prefix_antisym; assumption.
    + intros [Hp Hq]. left. auto.
Qed.

End MatchFacts.

Section MatchRuns.
#[local] Existing Instance Demo.platform.

(** An isolated process of [com.a], asked about on the sample phone. *)
Lemma C1_is_hide_target_isolated_witness :
  exists hit s',
    is_hide_target 99001 "com.a:x1" 1024 Demo.phone Demo.isolated_a = Ret hit s'
    /\ update_uid_map Demo.phone Demo.isolated_a = Ret tt s'
    /\ (hit = true
        <-> exists p, p ∈ isolated_patterns s'
                      /\ applied_match "com.a:x1" 1024 p)
    /\ (forall p, is_prefix "com.a:x1" p -> p <> "com.a:x1" ->
          (applied_match "com.a:x1" 1024 p
           <-> exceeds p 1024 /\ exceeds "com.a:x1" 1024)).
Proof.
  apply (C1_is_hide_target_isolated 99001 "com.a:x1" 1024 Demo.phone Demo.isolated_a).
  - split; eexists; reflexivity.
  - lia.
  - vm_compute. intros E. discriminate E.
Defined.

(** C1, as stated, fails: the only pattern is [com.a], the process name
    [com.a:x1] is not a prefix of it, and yet the answer is true, because
    the pattern is a prefix of the process name. *)
Lemma C1_counterexample :
  is_hide_target 99001 "com.a:x1" 1024 Demo.phone Demo.isolated_a
  = Ret true Demo.isolated_a
  /\ 90000 <= to_app_id 99001
  /\ ~ exists p, p ∈ isolated_patterns Demo.isolated_a
                 /\ described_match "com.a:x1" 1024 p.
Proof.
  split; [by_running|]. split; [vm_compute; intros E; discriminate E|].
  intros (p & Hin & Hmatch).
  assert (Hp : p = "com.a").
  { unfold isolated_patterns in Hin. simpl in Hin.
    rewrite lookup_singleton_eq, lookup_empty in Hin. simpl in Hin.
    apply elem_of_union in Hin as [Hin|Hin].
    - apply elem_of_singleton in Hin. exact Hin.
    - apply not_elem_of_empty in Hin. destruct Hin. }
  subst p.
  assert (Hno : ~ is_prefix "com.a:x1" "com.a").
  { intros Hpre. apply str_starts_prefix in Hpre. vm_compute in Hpre.
    discriminate Hpre. }
  destruct Hmatch as [(_ & _ & Hpre)|Hpre]; exact (Hno Hpre).
Qed.

End MatchRuns.

(** ** Enabling *)

Section LaunchFacts.
Context `{Platform}.

Lemma launch_without_namespace late_props w s :
  hide_enabled s = false -> ns_mnt_exists w = false ->
  launch_magiskhide late_props w s = Ret HIDE_NO_NS s.
Proof.
  intros Hoff Hns. unfold launch_magiskhide. unfold bind at 1. unfold get.
  rewrite Hoff, Hns. reflexivity.
Qed.

(** Loading rows into a built hide list with the process table open never
    faults, and touches neither the flag nor the index. *)
Lemma load_rows_runs rows w s :
  procfp s = true -> is_Some (pkg_to_procs_ s) ->
  exists s',
    load_rows rows w s = Ret tt s'
    /\ procfp s' = true /\ is_Some (pkg_to_procs_ s')
    /\ hide_enabled s' = hide_enabled s
    /\ app_id_to_pkgs_ s' = app_id_to_pkgs_ s.
Proof.
  revert s. induction rows as [|[pkg proc] rows IH]; intros s Hfp [m Hm]; simpl.
  - exists s. repeat split; eauto.
  - unfold bind at 1.
    destruct (decide (proc ∈ default ∅ (m !! pkg))) as [Hin|Hnew].
    + rewrite (add_hide_set_present pkg proc w s m Hm Hin).
      apply IH; eauto.
    + rewrite (add_hide_set_new pkg proc w s m Hm Hfp Hnew).
      match goal with |- context [load_rows rows w ?s1] =>
        destruct (IH s1) as (s' & Hrun & Hfp' & Hm' & Hen & Hidx);
          [exact Hfp | eexists; reflexivity |]
      end.
      exists s'. repeat split; assumption.
Qed.

Lemma init_list_fails w s :
  pkg_to_procs_ s = None -> procfp s = true -> db_select_fails w = true ->
  exists s',
    init_list w s = Ret false s'
    /\ hide_enabled s' = hide_enabled s
    /\ is_Some (pkg_to_procs_ s') /\ app_id_to_pkgs_ s' = app_id_to_pkgs_ s.
Proof.
  intros Hm Hfp Hdb. unfold init_list. unfold bind at 1. unfold get. rewrite Hm.
  unfold bind at 1. unfold modify at 1. unfold bind at 1. unfold emit, modify at 1.
  unfold bind at 1.
  match goal with |- context [load_rows (db_hidelist w) w ?s1] =>
    destruct (load_rows_runs (db_hidelist w) w s1)
      as (s' & Hrun & Hfp' & Hm' & Hen & Hidx);
      [exact Hfp | eexists; reflexivity |]
  end.
  rewrite Hrun, Hdb. exists s'. split; [reflexivity|].
  simpl in Hen, Hidx. repeat split; assumption.
Qed.

(** When the list cannot be loaded, [launch_magiskhide] clears the flag it
    has just set and answers [DAEMON_ERROR]; the half-built hide list
    stays. *)
Lemma launch_rolls_back late_props w s :
  hide_enabled s = false -> ns_mnt_exists w = true ->
  procfp s || proc_dir_opens w = true ->
  pkg_to_procs_ s = None -> db_select_fails w = true ->
  exists s',
    launch_magiskhide late_props w s = Ret DAEMON_ERROR s'
    /\ hide_enabled s' = false
    /\ is_Some (pkg_to_procs_ s') /\ app_id_to_pkgs_ s' = app_id_to_pkgs_ s.
Proof.
  intros Hoff Hns Hproc Hm Hdb. unfold launch_magiskhide.
  unfold bind at 1. unfold get. rewrite Hoff, Hns.
  assert (Hopen : negb (procfp s) && negb (proc_dir_opens w) = false).
  { destruct (procfp s), (proc_dir_opens w); simpl in *;
      try reflexivity; discriminate Hproc. }
  rewrite Hopen. cbn [negb]. cbv iota.
  unfold bind at 1. unfold modify at 1.
  unfold bind at 1. unfold modify at 1.
  unfold bind at 1.
  match goal with |- context [init_list w ?s1] =>
    destruct (init_list_fails w s1) as (s' & Hrun & Hen & Hm' & Hidx);
      [exact Hm | reflexivity | exact Hdb |]
  end.
  rewrite Hrun. cbn [negb]. cbv iota.
  unfold bind, modify, ret. eexists. split; [reflexivity|]. simpl.
  simpl in Hidx. repeat split; assumption.
Qed.

End LaunchFacts.

Section LaunchRuns.
#[local] Existing Instance Demo.platform.

(** C2 fails on this run.  The first [launch_magiskhide] meets
    a database that cannot be read to the end: it answers [DAEMON_ERROR]
    with the flag cleared, but keeps the half-built hide list and no index.
    The next [launch_magiskhide] takes the hide list for a finished
    initialisation.  With the package registry missing it answers
    [DAEMON_SUCCESS] and leaves the flag set with no index at all; with the
    registry in place it faults on the absent index. *)
Theorem C2_launch_after_failed_init :
  exists s1 s2,
    launch_magiskhide false Demo.broken_db boot = Ret DAEMON_ERROR s1
    /\ hide_enabled s1 = false
    /\ pkg_to_procs_ s1 = Some {[ "com.a" := {[ "com.a" ]} ]}
    /\ app_id_to_pkgs_ s1 = None
    /\ launch_magiskhide false Demo.no_registry s1 = Ret DAEMON_SUCCESS s2
    /\ hide_enabled s2 = true
    /\ app_id_to_pkgs_ s2 = None
    /\ launch_magiskhide false Demo.phone s1 = Fault.
Proof.
  eexists _, _.
  split; [by_running|]. split; [reflexivity|].
  split; [by_running|]. split; [reflexivity|].
  split; [by_running|]. split; [reflexivity|].
  split; [reflexivity|]. vm_compute. reflexivity.
Qed.

Example launch_without_namespace_on_boot :
  launch_magiskhide false
    {| packages_xml_ino := 7; app_data := None; proc_pids := [];
       proc_cmdline := Demo.cmdlines; ns_mnt_exists := false;
       proc_dir_opens := true; SDK_INT := 30; db_hidelist := [];
       db_select_fails := false; db_write_fails := false;
       thread_start_fails := false |} boot
  = Ret HIDE_NO_NS boot.
Proof. apply launch_without_namespace; reflexivity. Qed.

End LaunchRuns.

(** ** Removing *)

Section RemoveFacts.
Context `{Platform}.



Lemma index_erase_gone a pkg idx : pkg ∉ default ∅ (index_erase a pkg idx !! a).
Proof.
  unfold index_erase. destruct (idx !! a) as [pkgs|] eqn:Ha.
  - simpl. destruct (decide (pkgs ∖ {[pkg]} = ∅)).
    + rewrite lookup_delete_eq. simpl. apply not_elem_of_empty.
    + rewrite lookup_insert_eq. simpl. intros Hin.
      apply elem_of_difference in Hin as [_ Hn]. apply Hn, elem_of_singleton.
      reflexivity.
  - rewrite Ha. simpl. apply not_elem_of_empty.
Qed.



End RemoveFacts.

Section RemoveRuns.
#[local] Existing Instance Demo.platform.

(** C4 fails on this run.  [com.a] is added while it is
    installed, which files it under app id 10001.  It is then uninstalled
    and removed from the hide list before the registry changes:
    [update_pkg_uid] finds no directory to take the app id from, so the
    hide list loses the package while the index still files it under
    10001. *)
Theorem C4_remove_leaves_index_entry :
  exists s1 s2,
    add_hide_list "com.a" "" Demo.phone Demo.enabled = Ret DAEMON_SUCCESS s1
    /\ pkg_to_procs_ s1 = Some {[ "com.a" := {[ "com.a" ]} ]}
    /\ app_id_to_pkgs_ s1 = Some {[ 10001 := {[ "com.a" ]} ]}
    /\ rm_hide_list "com.a" "" Demo.uninstalled s1 = Ret DAEMON_SUCCESS s2
    /\ pkg_to_procs_ s2 = Some ∅
    /\ app_id_to_pkgs_ s2 = Some {[ 10001 := {[ "com.a" ]} ]}.
Proof.
  eexists _, _.
  split; [by_running|]. split; [by_running|].
  split; [by_running|]. split; [by_running|].
  split; by_running.
Qed.

(** With the directory still in place the same removal clears the index. *)
Example remove_while_installed :
  exists s1 s2,
    add_hide_list "com.a" "" Demo.phone Demo.enabled = Ret DAEMON_SUCCESS s1
    /\ rm_hide_list "com.a" "" Demo.phone s1 = Ret DAEMON_SUCCESS s2
    /\ pkg_to_procs_ s2 = Some ∅ /\ app_id_to_pkgs_ s2 = Some ∅.
Proof.
  eexists _, _. split; [by_running|].
  split; [by_running|]. split; by_running.
Qed.

End RemoveRuns.

(** ** The index and the hide list *)

Section InvariantFacts.
Context `{Platform}.

Lemma in_in_order pkg (X : gset string) : In pkg (in_order X) <-> pkg ∈ X.
Proof.
  unfold in_order. rewrite <- list_elem_of_In, merge_sort_Permutation.
  apply elem_of_elements.
Qed.

Lemma first_hidden_hidden m a es e :
  first_hidden m a es = Some e -> is_Some (m !! d_name e).
Proof.
  intros Hf. apply find_some in Hf as [_ Hsel].
  apply andb_true_iff in Hsel as [_ Hh]. apply bool_decide_eq_true in Hh.
  exact Hh.
Qed.

(** A refresh keeps the index within the hide list. *)
Lemma update_uid_map_index_in_store w s s' :
  initialized s -> index_in_store s ->
  update_uid_map w s = Ret tt s' -> index_in_store s'.
Proof.
  intros [[m Hm] [idx Hidx]] Hinv Hrun.
  destruct (Z.eq_dec (pkg_xml_ino s) (packages_xml_ino w)) as [E|Hne].
  - rewrite (update_uid_map_unchanged w s E) in Hrun. injection Hrun as <-.
    exact Hinv.
  - destruct (update_uid_map_rebuilds w s m idx Hne Hm Hidx) as (idx' & Hrun' & Hb).
    rewrite Hrun' in Hrun. injection Hrun as <-.
    intros m0 idx0 a pkgs pkg Hm0 Hidx0 Ha Hin. simpl in Hm0, Hidx0.
    rewrite Hm in Hm0. injection Hm0 as <-. injection Hidx0 as <-.
    rewrite Hb in Ha.
    destruct (first_hidden m a _) as [e|] eqn:Hf; [|discriminate Ha].
    simpl in Ha. injection Ha as <-. apply elem_of_singleton in Hin. subst pkg.
    exact (first_hidden_hidden _ _ _ _ Hf).
Qed.

Lemma owned_procs_contain_total m process pkgs :
  (forall pkg, In pkg pkgs -> is_Some (m !! pkg)) ->
  exists b, owned_procs_contain m process pkgs = Some b.
Proof.
  induction pkgs as [|pkg pkgs IH]; intros Hall; simpl; [eauto|].
  destruct (Hall pkg (or_introl eq_refl)) as [procs ->].
  destruct (bool_decide (process ∈ procs)); [eauto|].
  apply IH. intros p Hp. apply Hall. right. exact Hp.
Qed.

(** While the index stays within the hide list, the matcher answers. *)
Lemma is_hide_target_answers uid process max_len w s :
  initialized s -> index_in_store s ->
  exists hit s', is_hide_target uid process max_len w s = Ret hit s'.
Proof.
  intros Hinit Hinv. pose proof Hinit as [[m Hm] [idx Hidx]].
  destruct (update_uid_map_runs w s m idx Hm Hidx)
    as (s' & idx' & Hupd & Hm' & Hidx' & _).
  pose proof (update_uid_map_index_in_store w s s' Hinit Hinv Hupd) as Hinv'.
  unfold is_hide_target. unfold bind at 1. rewrite (init_list_ready w s m Hm).
  cbn [negb]. cbv iota. unfold bind at 1. rewrite Hupd. unfold bind at 1.
  unfold get. rewrite Hm', Hidx'.
  destruct (90000 <=? to_app_id uid).
  - destruct (existsb _ _); eexists _, _; reflexivity.
  - destruct (idx' !! to_app_id uid) as [pkgs|] eqn:Hb;
      [|eexists _, _; reflexivity].
    destruct (owned_procs_contain_total m process (in_order pkgs)) as [b ->].
    + intros pkg Hin. apply in_in_order in Hin.
      exact (Hinv' m idx' _ pkgs pkg Hm' Hidx' Hb Hin).
    + destruct b; eexists _, _; reflexivity.
Qed.

End InvariantFacts.

Section InvariantRuns.
#[local] Existing Instance Demo.platform.

(** C9 fails on these runs.  The index of [Demo.enabled] is
    within the hide list.  Adding process [com.b] to package [com.a] hands
    the process name to [update_pkg_uid]; [com.b] is also the name of an
    installed package, so the index files [com.b] under app id 10001 while
    the hide list has no package [com.b].  The next question about a
    process of that app id reads through [end()] in the unguarded lookup.
    Removing [com.a] after its directory is gone ends the same way. *)
Theorem C9_add_files_process_name :
  index_in_store Demo.enabled
  /\ (exists s1 m idx,
        add_hide_list "com.a" "com.b" Demo.phone Demo.enabled
        = Ret DAEMON_SUCCESS s1
        /\ pkg_to_procs_ s1 = Some m /\ app_id_to_pkgs_ s1 = Some idx
        /\ m = {[ "com.a" := {[ "com.b" ]} ]}
        /\ idx = {[ 10001 := {[ "com.b" ]} ]}
        /\ ~ index_in_store s1
        /\ is_hide_target 10001 "com.b" 1024 Demo.phone s1 = Fault)
  /\ (exists s1 s2,
        add_hide_list "com.a" "" Demo.phone Demo.enabled = Ret DAEMON_SUCCESS s1
        /\ index_in_store s1
        /\ rm_hide_list "com.a" "" Demo.uninstalled s1 = Ret DAEMON_SUCCESS s2
        /\ ~ index_in_store s2
        /\ is_hide_target 10001 "com.a" 1024 Demo.uninstalled s2 = Fault).
Proof.
  split; [|split].
  - intros m idx a pkgs pkg _ Hidx Ha. simpl in Hidx. injection Hidx as <-.
    rewrite lookup_empty in Ha. discriminate Ha.
  - eexists _, _, _.
    split; [by_running|]. split; [by_running|].
    split; [by_running|]. split; [reflexivity|].
    split; [reflexivity|]. split; [|by_running].
    intros Hinv.
    destruct (Hinv {[ "com.a" := {[ "com.b" ]} ]} {[ 10001 := {[ "com.b" ]} ]}
                10001 {[ "com.b" ]} "com.b") as [procs Hprocs].
    + by_running.
    + by_running.
    + apply lookup_singleton_eq.
    + apply elem_of_singleton. reflexivity.
    + rewrite lookup_singleton_ne in Hprocs; [discriminate Hprocs|].
      intros E. discriminate E.
  - eexists _, _. split; [by_running|]. split; [|split; [by_running|split]].
    + intros m idx a pkgs pkg Hm Hidx Ha Hin.
      assert (Em : m = {[ "com.a" := {[ "com.a" ]} ]}).
      { apply (inj Some). rewrite <- Hm. by_running. }
      assert (Ei : idx = {[ 10001 := {[ "com.a" ]} ]}).
      { apply (inj Some). rewrite <- Hidx. by_running. }
      subst m idx.
      destruct (decide (a = 10001)) as [->|Hne].
      * rewrite lookup_singleton_eq in Ha. injection Ha as <-.
        apply elem_of_singleton in Hin. subst pkg.
        rewrite lookup_singleton_eq. eexists. reflexivity.
      * rewrite lookup_singleton_ne in Ha by congruence. discriminate Ha.
    + intros Hinv.
      destruct (Hinv ∅ {[ 10001 := {[ "com.a" ]} ]} 10001 {[ "com.a" ]} "com.a")
        as [procs Hprocs].
      * by_running.
      * by_running.
      * apply lookup_singleton_eq.
      * apply elem_of_singleton. reflexivity.
      * rewrite lookup_empty in Hprocs. discriminate Hprocs.
    + by_running.
Qed.

End InvariantRuns.

(** * Further properties *)

(** ** Running a computation step by step *)

Section MonadFacts.

Lemma bind_run {A B} (m : M A) (k : A -> M B) s a s1 :
  m s = Ret a s1 -> bind m k s = k a s1.
Proof. intros Hrun. unfold bind. rewrite Hrun. reflexivity. Qed.

Lemma bind_fault {A B} (m : M A) (k : A -> M B) s :
  m s = Fault -> bind m k s = Fault.
Proof. intros Hrun. unfold bind. rewrite Hrun. reflexivity. Qed.

Lemma bind_ret_inv {A B} (m : M A) (k : A -> M B) s b s' :
  bind m k s = Ret b s' -> exists a s1, m s = Ret a s1 /\ k a s1 = Ret b s'.
Proof.
  unfold bind. destruct (m s) as [a s1|]; [eauto | intros E; discriminate E].
Qed.

End MonadFacts.

(** ** What the reaper can reach *)

Section ReaperReach.
Context `{Platform}.

(** X1: with [/proc] open, [kill_process] signals only pids that are
    positive, listed in [/proc] and accepted by the filter.  Without
    [multi] it signals at most one of them.  Whenever some listed positive
    pid is accepted, at least one process is signalled, and with [multi]
    every accepted one is. *)
Theorem X1_kill_process_reach name multi (filter : Z -> string -> bool) w s :
  procfp s = true ->
  exists killed,
    kill_process name multi filter w s
    = Ret tt (set_trace (trace s ++ List.map Kill killed) s)
    /\ (forall pid, In pid killed ->
          0 < pid /\ In pid (proc_pids w) /\ filter pid name = true)
    /\ (multi = false -> (length killed <= 1)%nat)
    /\ (forall pid, In pid (proc_pids w) -> 0 < pid -> filter pid name = true ->
          killed <> [] /\ (multi = true -> In pid killed)).
Proof.
  intros Hfp. exists (victims multi (fun pid => filter pid name) w).
  split; [apply kill_process_kills; exact Hfp|].
  unfold victims, all_matching, first_matching, live_pids.
  destruct multi.
  - split; [|split; [intros E; discriminate E|]].
    + intros pid Hin. apply filter_In in Hin as [Hin Hsel].
      apply filter_In in Hin as [Hin Hpos]. apply Z.ltb_lt in Hpos. auto.
    + intros pid Hin Hpos Hsel.
      assert (Hk : In pid (List.filter (fun pid => filter pid name)
                             (List.filter (fun pid => 0 <? pid) (proc_pids w)))).
      { apply filter_In. split; [|exact Hsel]. apply filter_In.
        split; [exact Hin | apply Z.ltb_lt; exact Hpos]. }
      split; [|intros _; exact Hk].
      intros E. rewrite E in Hk. destruct Hk.
  - destruct (List.find (fun pid => filter pid name)
                (List.filter (fun pid => 0 <? pid) (proc_pids w)))
      as [first|] eqn:Hfind; simpl.
    + apply find_some in Hfind as [Hin Hsel].
      apply filter_In in Hin as [Hin Hpos]. apply Z.ltb_lt in Hpos.
      split; [|split; [intros _; lia|]].
      * intros pid [<-|[]]. auto.
      * intros pid _ _ _. split; [intros E; discriminate E|].
        intros E; discriminate E.
    + split; [intros pid []|]. split; [intros _; lia|].
      intros pid Hin Hpos Hsel. exfalso.
      assert (Hno : filter pid name = false).
      { apply (find_none _ _ Hfind pid). apply filter_In.
        split; [exact Hin | apply Z.ltb_lt; exact Hpos]. }
      rewrite Hno in Hsel. discriminate Hsel.
Qed.

End ReaperReach.

Section ReaperReachRuns.
#[local] Existing Instance Demo.platform.

(** Killing [com.a] on the sample phone, one process and then all. *)
Lemma X1_kill_process_reach_witness :
  (exists killed,
     kill_process "com.a" false (proc_name_match str_eql Demo.phone)
       Demo.phone Demo.enabled
     = Ret tt (set_trace (trace Demo.enabled ++ List.map Kill killed) Demo.enabled)
     /\ (length killed <= 1)%nat /\ killed <> [])
  /\ (exists killed,
        kill_process "com.a" true (proc_name_match str_eql Demo.phone)
          Demo.phone Demo.enabled
        = Ret tt (set_trace (trace Demo.enabled ++ List.map Kill killed) Demo.enabled)
        /\ In 50 killed /\ In 60 killed).
Proof.
  split.
  - destruct (X1_kill_process_reach "com.a" false
                (proc_name_match str_eql Demo.phone) Demo.phone Demo.enabled
                eq_refl) as (killed & Hrun & _ & Hone & Hsome).
    exists killed. split; [exact Hrun|]. split; [apply Hone; reflexivity|].
    apply (Hsome 50); [simpl; tauto | lia | reflexivity].
  - destruct (X1_kill_process_reach "com.a" true
                (proc_name_match str_eql Demo.phone) Demo.phone Demo.enabled
                eq_refl) as (killed & Hrun & _ & _ & Hsome).
    exists killed. split; [exact Hrun|]. split.
    + apply (Hsome 50); [simpl; tauto | lia | reflexivity | reflexivity].
    + apply (Hsome 60); [simpl; tauto | lia | reflexivity | reflexivity].
Defined.

End ReaperReachRuns.

(** ** The validator and the colon *)

Section ValidatorTail.
Context `{Platform}.

Lemma before_colon_upto head tail :
  all_chars pkg_char head -> before_colon (head +:+ String colon tail) = head.
Proof.
  induction head as [|c head IH]; intros Hall.
  - change (before_colon (String colon tail) = EmptyString). simpl.
    reflexivity.
  - change (before_colon (String c (head +:+ String colon tail)) = String c head).
    apply all_chars_cons in Hall as [Hc Hall]. simpl.
    rewrite (pkg_char_not_colon c Hc), (IH Hall). reflexivity.
Qed.

(** X3: for the reserved package name the validator looks at nothing
    behind the first colon of the process name: a name whose part in front
    of the colon is made of letters, digits, underscores and dots is
    accepted with any tail whatsoever. *)
Theorem X3_validate_ignores_tail head tail :
  all_chars pkg_char head ->
  validate ISOLATED_MAGIC (head +:+ String colon tail) = true.
Proof.
  intros Hall. apply validate_spec. left. split; [reflexivity|].
  rewrite (before_colon_upto head tail Hall). exact Hall.
Qed.

End ValidatorTail.

Section ValidatorTailRuns.
#[local] Existing Instance Demo.platform.

(** A process name with quotes and blanks behind its colon. *)
Lemma X3_validate_ignores_tail_witness :
  validate "isolated" "com.a:' OR 'x'='x" = true.
Proof.
  assert (Hhead : all_chars pkg_char "com.a").
  { intros c Hc. vm_compute in Hc.
    repeat (destruct Hc as [<-|Hc]; [reflexivity|]). destruct Hc. }
  exact (X3_validate_ignores_tail "com.a" "' OR 'x'='x" Hhead).
Defined.

End ValidatorTailRuns.

(** ** Loading the hide list *)

Section LoadFacts.
Context `{Platform}.

Lemma member_after_insert (m : gmap string (gset string)) pkg proc pkg0 proc0 :
  proc0 ∈ default ∅ (<[pkg := default ∅ (m !! pkg) ∪ {[proc]}]> m !! pkg0)
  <-> proc0 ∈ default ∅ (m !! pkg0) \/ (pkg0 = pkg /\ proc0 = proc).
Proof.
  destruct (decide (pkg = pkg0)) as [<-|Hne].
  - rewrite lookup_insert_eq. simpl. rewrite elem_of_union, elem_of_singleton.
    split; [intros [Hin| ->]; auto | intros [Hin|[_ ->]]; auto].
  - rewrite lookup_insert_ne by exact Hne. split; [auto|].
    intros [Hin|[E _]]; [exact Hin | congruence].
Qed.

Lemma insert_keeps_packages (m : gmap string (gset string)) pkg proc :
  (forall p procs, m !! p = Some procs -> procs <> ∅) ->
  forall p procs,
    <[pkg := default ∅ (m !! pkg) ∪ {[proc]}]> m !! p = Some procs -> procs <> ∅.
Proof.
  intros Hm p procs. destruct (decide (pkg = p)) as [<-|Hne].
  - rewrite lookup_insert_eq. intros [= <-] E.
    assert (Hin : proc ∈ default ∅ (m !! pkg) ∪ {[proc]})
      by (apply elem_of_union_r, elem_of_singleton; reflexivity).
    rewrite E in Hin. apply not_elem_of_empty in Hin. exact Hin.
  - rewrite lookup_insert_ne by exact Hne. apply Hm.
Qed.

Lemma add_hide_set_no_procfp pkg proc w s m :
  pkg_to_procs_ s = Some m -> procfp s = false ->
  proc ∉ default ∅ (m !! pkg) ->
  add_hide_set pkg proc w s = Fault.
Proof.
  intros Hm Hfp Hnew. unfold add_hide_set. unfold bind at 1. unfold get.
  rewrite Hm. unfold bind at 1. unfold modify at 1.
  rewrite bool_decide_eq_false_2 by exact Hnew.
  unfold bind. destruct (str_eql pkg ISOLATED_MAGIC);
    rewrite kill_process_no_procfp by exact Hfp; reflexivity.
Qed.

(** One row, with [/proc] open: the pair joins the list, nothing else of
    the daemon changes but the trace. *)
Lemma add_hide_set_runs pkg proc w s m :
  pkg_to_procs_ s = Some m -> procfp s = true ->
  exists inserted s' killed,
    add_hide_set pkg proc w s = Ret inserted s'
    /\ inserted = negb (bool_decide (proc ∈ default ∅ (m !! pkg)))
    /\ pkg_to_procs_ s' = Some (<[pkg := default ∅ (m !! pkg) ∪ {[proc]}]> m)
    /\ app_id_to_pkgs_ s' = app_id_to_pkgs_ s
    /\ hide_enabled s' = hide_enabled s /\ procfp s' = true
    /\ pkg_xml_ino s' = pkg_xml_ino s
    /\ trace s' = trace s ++ List.map Kill killed
    /\ (inserted = false -> s' = s).
Proof.
  intros Hm Hfp. destruct (decide (proc ∈ default ∅ (m !! pkg))) as [Hin|Hnew].
  - exists false, s, []. rewrite (add_hide_set_present pkg proc w s m Hm Hin).
    rewrite bool_decide_eq_true_2 by exact Hin.
    split; [reflexivity|]. split; [reflexivity|]. split.
    + rewrite Hm. f_equal.
      destruct (m !! pkg) as [procs|] eqn:Hpkg; simpl in Hin;
        [|apply not_elem_of_empty in Hin; destruct Hin].
      symmetry. apply insert_id. simpl. rewrite Hpkg. f_equal.
      apply leibniz_equiv. intros x. rewrite elem_of_union, elem_of_singleton.
      split; [intros Hx; left; exact Hx | intros [Hx| ->]; assumption].
    + simpl. rewrite app_nil_r. repeat split; auto.
  - eexists true, _, _. rewrite (add_hide_set_new pkg proc w s m Hm Hfp Hnew).
    rewrite bool_decide_eq_false_2 by exact Hnew.
    split; [reflexivity|]. split; [reflexivity|]. simpl.
    repeat split; auto. intros E. discriminate E.
Qed.

Lemma load_rows_loads rows w s m :
  pkg_to_procs_ s = Some m -> procfp s = true ->
  exists s' m' killed,
    load_rows rows w s = Ret tt s'
    /\ pkg_to_procs_ s' = Some m'
    /\ (forall pkg proc,
          proc ∈ default ∅ (m' !! pkg)
          <-> proc ∈ default ∅ (m !! pkg) \/ In (pkg, proc) rows)
    /\ ((forall p procs, m !! p = Some procs -> procs <> ∅) ->
        forall p procs, m' !! p = Some procs -> procs <> ∅)
    /\ app_id_to_pkgs_ s' = app_id_to_pkgs_ s
    /\ hide_enabled s' = hide_enabled s /\ procfp s' = true
    /\ pkg_xml_ino s' = pkg_xml_ino s
    /\ trace s' = trace s ++ List.map Kill killed.
Proof.
  revert s m. induction rows as [|[pkg proc] rows IH]; intros s m Hm Hfp; simpl.
  - exists s, m, []. split; [reflexivity|]. split; [exact Hm|].
    split; [intros; tauto|]. simpl. rewrite app_nil_r. repeat split; auto.
  - destruct (add_hide_set_runs pkg proc w s m Hm Hfp)
      as (b & s1 & k1 & Hrun & _ & Hm1 & Hidx1 & Hen1 & Hfp1 & Hino1 & Htr1 & _).
    rewrite (bind_run _ _ _ _ _ Hrun).
    destruct (IH s1 _ Hm1 Hfp1)
      as (s' & m' & k2 & Hrun' & Hm' & Hmem & Hne & Hidx & Hen & Hfp' & Hino & Htr).
    exists s', m', (k1 ++ k2). split; [exact Hrun'|]. split; [exact Hm'|]. split.
    + intros pkg0 proc0. rewrite Hmem, member_after_insert. split.
      * intros [[Hin|[-> ->]]|Hin]; auto.
      * intros [Hin|[E|Hin]]; auto. injection E as <- <-. auto.
    + split; [intros Hm0; apply Hne, insert_keeps_packages, Hm0|].
      rewrite Htr, Htr1, List.map_app, app_assoc.
      repeat split; congruence.
Qed.

Lemma index_in_store_empty s : app_id_to_pkgs_ s = Some ∅ -> index_in_store s.
Proof.
  intros Hidx m idx a pkgs pkg _ Hidx' Ha. rewrite Hidx in Hidx'.
  injection Hidx' as <-. rewrite lookup_empty in Ha. discriminate Ha.
Qed.

(** The lazy initialisation of an absent hide list, with [/proc] open. *)
Lemma init_list_loads w s :
  pkg_to_procs_ s = None -> procfp s = true ->
  exists s',
    init_list w s = Ret (negb (db_select_fails w)) s'
    /\ (forall pkg proc, hides s' pkg proc <-> In (pkg, proc) (db_hidelist w))
    /\ no_empty_package s'
    /\ hide_enabled s' = hide_enabled s /\ procfp s' = true
    /\ (exists killed,
          trace s' = trace s ++ DbExec SelectHidelist :: List.map Kill killed)
    /\ (db_select_fails w = true -> app_id_to_pkgs_ s' = app_id_to_pkgs_ s)
    /\ (db_select_fails w = false ->
        initialized s' /\ index_in_store s'
        /\ pkg_xml_ino s' = packages_xml_ino w
        /\ (pkg_xml_ino s = packages_xml_ino w -> app_id_to_pkgs_ s' = Some ∅)).
Proof.
  intros Hm Hfp. unfold init_list. unfold bind at 1. unfold get. rewrite Hm.
  unfold bind at 1. unfold modify at 1. unfold bind at 1. unfold emit, modify at 1.
  match goal with |- context [bind (load_rows (db_hidelist w) w) _ ?s1] =>
    destruct (load_rows_loads (db_hidelist w) w s1 ∅ eq_refl Hfp)
      as (s2 & m2 & killed & Hrun & Hm2 & Hmem & Hne & Hidx & Hen & Hfp2 & Hino
          & Htr)
  end.
  rewrite (bind_run _ _ _ _ _ Hrun). simpl in Hidx, Hen, Hino, Htr.
  rewrite <- app_assoc in Htr. simpl in Htr.
  assert (Hhides : forall s3, pkg_to_procs_ s3 = Some m2 ->
            forall pkg proc, hides s3 pkg proc <-> In (pkg, proc) (db_hidelist w)).
  { intros s3 Hm3 pkg proc. unfold hides. rewrite Hm3. split.
    - intros (m & [= <-] & Hin). apply Hmem in Hin as [Hin|Hin]; [|exact Hin].
      rewrite lookup_empty in Hin. apply not_elem_of_empty in Hin. destruct Hin.
    - intros Hin. exists m2. split; [reflexivity|]. apply Hmem. auto. }
  assert (Hnoempty : forall s3, pkg_to_procs_ s3 = Some m2 -> no_empty_package s3).
  { intros s3 Hm3 m p procs Hm0 Hp. rewrite Hm3 in Hm0. injection Hm0 as <-.
    revert Hp. apply Hne. intros p0 procs0 E. rewrite lookup_empty in E.
    discriminate E. }
  destruct (db_select_fails w) eqn:Hdb.
  - exists s2. split; [reflexivity|]. split; [exact (Hhides s2 Hm2)|].
    split; [exact (Hnoempty s2 Hm2)|]. split; [exact Hen|]. split; [exact Hfp2|].
    split; [exists killed; exact Htr|].
    split; [intros _; exact Hidx | intros E; discriminate E].
  - unfold bind at 1. unfold modify at 1.
    destruct (update_uid_map_runs w (set_app_id_to_pkgs (Some ∅) s2) m2 ∅ Hm2 eq_refl)
      as (s3 & idx3 & Hupd & Hm3 & Hidx3 & Hen3 & Hfp3 & Htr3).
    rewrite (bind_run _ _ _ _ _ Hupd). exists s3. split; [reflexivity|].
    split; [exact (Hhides s3 Hm3)|]. split; [exact (Hnoempty s3 Hm3)|].
    simpl in Hen3, Hfp3, Htr3. split; [congruence|]. split; [congruence|].
    split; [exists killed; congruence|].
    split; [intros E; discriminate E|]. intros _.
    split; [split; eexists; eassumption|]. split.
    + apply (update_uid_map_index_in_store w
               (set_app_id_to_pkgs (Some ∅) s2) s3); [| |exact Hupd].
      * split; eexists; [exact Hm2 | reflexivity].
      * apply index_in_store_empty. reflexivity.
    + split; [exact (update_uid_map_fingerprint w
                       (set_app_id_to_pkgs (Some ∅) s2) s3 Hupd)|].
      intros Hsame.
      rewrite update_uid_map_unchanged in Hupd by (simpl; congruence).
      injection Hupd as <-. reflexivity.
Qed.

(** X2: the lazy initialisation of an absent hide list, with [/proc] open,
    always completes.  It succeeds exactly when the SELECT reports no
    error.  Either way the hide list then holds exactly the rows the
    database handed over, and no package with an empty process set.  On
    success both structures are built, the index names only packages of
    the list, and the fingerprint is current; on failure the index is left
    as it was. *)
Theorem X2_init_list_loads_rows w s :
  pkg_to_procs_ s = None -> procfp s = true ->
  exists s',
    init_list w s = Ret (negb (db_select_fails w)) s'
    /\ (forall pkg proc, hides s' pkg proc <-> In (pkg, proc) (db_hidelist w))
    /\ no_empty_package s'
    /\ (db_select_fails w = true -> app_id_to_pkgs_ s' = app_id_to_pkgs_ s)
    /\ (db_select_fails w = false ->
        initialized s' /\ index_in_store s'
        /\ pkg_xml_ino s' = packages_xml_ino w).
Proof.
  intros Hm Hfp.
  destruct (init_list_loads w s Hm Hfp)
    as (s' & Hrun & Hmem & Hne & _ & _ & _ & Hfail & Hok).
  exists s'. split; [exact Hrun|]. split; [exact Hmem|]. split; [exact Hne|].
  split; [exact Hfail|]. intros Hdb. destruct (Hok Hdb) as (Hi & Hinv & Hino & _).
  auto.
Qed.

End LoadFacts.

Section LoadRuns.
#[local] Existing Instance Demo.platform.

(** Loading the two rows of [Samples.with_rows] into a daemon that has
    opened [/proc] but built nothing yet. *)
Lemma X2_init_list_loads_rows_witness :
  exists s',
    init_list Samples.with_rows (set_procfp true boot) = Ret true s'
    /\ hides s' "com.b" "com.b:bg"
    /\ ~ hides s' "com.b" "com.b"
    /\ initialized s'.
Proof.
  destruct (X2_init_list_loads_rows Samples.with_rows (set_procfp true boot)
              eq_refl eq_refl) as (s' & Hrun & Hmem & _ & _ & Hok).
  exists s'. split; [exact Hrun|]. split; [|split].
  - apply Hmem. simpl. tauto.
  - intros Hh. apply Hmem in Hh. simpl in Hh.
    destruct Hh as [E|[E|[]]]; discriminate E.
  - apply Hok. reflexivity.
Defined.

End LoadRuns.

(** ** More about adding *)

Section AddMore.
Context `{Platform}.

Lemma add_hide_list_steps pkg proc w s m :
  pkg_to_procs_ s = Some m ->
  validate pkg (effective_proc pkg proc) = true ->
  add_hide_list pkg proc w s
  = match add_hide_set pkg (effective_proc pkg proc) w s with
    | Ret true s1 =>
        (update_pkg_uid (effective_proc pkg proc) false w >>
         emit (DbExec (InsertHide pkg (effective_proc pkg proc))) >>
         if db_write_fails w then ret DAEMON_ERROR else ret DAEMON_SUCCESS) s1
    | Ret false s1 => Ret HIDE_ITEM_EXIST s1
    | Fault => Fault
    end.
Proof.
  intros Hm Hv. unfold add_hide_list. fold (effective_proc pkg proc).
  rewrite Hv. cbn [negb]. cbv iota.
  rewrite (bind_run _ _ _ _ _ (init_list_ready w s m Hm)). cbn [negb]. cbv iota.
  unfold bind at 1. destruct (add_hide_set _ _ w s) as [[] s1|]; reflexivity.
Qed.


(** X4: the two ways [add_hide_list] gives up before it touches the list.
    A pair that fails the validator is answered [HIDE_INVALID_PKG] with
    nothing done at all, not even the lazy initialisation.  A valid pair
    that meets a database whose SELECT fails is answered [DAEMON_ERROR]:
    the hide list then holds the rows that were read and not the new
    pair, and nothing but the SELECT reached the database. *)
Theorem X4_add_hide_list_gives_up pkg proc w s :
  (validate pkg (effective_proc pkg proc) = false ->
   add_hide_list pkg proc w s = Ret HIDE_INVALID_PKG s)
  /\ (validate pkg (effective_proc pkg proc) = true ->
      pkg_to_procs_ s = None -> procfp s = true -> db_select_fails w = true ->
      exists s' killed,
        add_hide_list pkg proc w s = Ret DAEMON_ERROR s'
        /\ (forall p q, hides s' p q <-> In (p, q) (db_hidelist w))
        /\ trace s' = trace s ++ DbExec SelectHidelist :: List.map Kill killed).
Proof.
  split.
  - intros Hv. unfold add_hide_list. fold (effective_proc pkg proc).
    rewrite Hv. reflexivity.
  - intros Hv Hm Hfp Hdb. unfold add_hide_list. fold (effective_proc pkg proc).
    rewrite Hv. cbn [negb]. cbv iota.
    destruct (init_list_loads w s Hm Hfp)
      as (s' & Hrun & Hmem & _ & _ & _ & [killed Htr] & _ & _).
    rewrite Hdb in Hrun. rewrite (bind_run _ _ _ _ _ Hrun).
    exists s', killed. split; [reflexivity|]. split; [exact Hmem | exact Htr].
Qed.

(** X16: list edits and questions before [/proc] was ever opened.  A valid
    new pair added to a built list, and every operation that has to load a
    database row into an absent list, run the reaper on the null [procfp]
    and fault. *)
Theorem X16_reaper_needs_procfp pkg proc w s :
  procfp s = false ->
  (forall m, pkg_to_procs_ s = Some m ->
     validate pkg (effective_proc pkg proc) = true ->
     effective_proc pkg proc ∉ default ∅ (m !! pkg) ->
     add_hide_list pkg proc w s = Fault)
  /\ (pkg_to_procs_ s = None -> db_hidelist w <> [] ->
      init_list w s = Fault
      /\ rm_hide_list pkg proc w s = Fault
      /\ (forall uid max_len, is_hide_target uid proc max_len w s = Fault)
      /\ ls_hide_list w s = Fault
      /\ (validate pkg (effective_proc pkg proc) = true ->
          add_hide_list pkg proc w s = Fault)).
Proof.
  intros Hfp. split.
  - intros m Hm Hv Hnew. rewrite (add_hide_list_steps pkg proc w s m Hm Hv).
    rewrite (add_hide_set_no_procfp _ _ w s m Hm Hfp Hnew). reflexivity.
  - intros Hm Hrows.
    assert (Hinit : init_list w s = Fault).
    { unfold init_list. unfold bind at 1. unfold get. rewrite Hm.
      unfold bind at 1. unfold modify at 1. unfold bind at 1.
      unfold emit, modify at 1.
      destruct (db_hidelist w) as [|[p q] rest]; [congruence|]. simpl.
      apply bind_fault. apply bind_fault.
      apply (add_hide_set_no_procfp p q w _ ∅); [reflexivity | exact Hfp |].
      rewrite lookup_empty. apply not_elem_of_empty. }
    split; [exact Hinit|]. split; [apply bind_fault, Hinit|].
    split; [intros uid max_len; apply bind_fault, Hinit|].
    split; [apply bind_fault, Hinit|].
    intros Hv. unfold add_hide_list. fold (effective_proc pkg proc).
    rewrite Hv. apply bind_fault, Hinit.
Qed.



End AddMore.

(** ** The matcher for ordinary apps *)

Section MatchNormal.
Context `{Platform}.



(** The normal regime once the refresh has run. *)
Lemma is_hide_target_normal uid process max_len w s s' m idx :
  is_Some (pkg_to_procs_ s) ->
  update_uid_map w s = Ret tt s' ->
  pkg_to_procs_ s' = Some m -> app_id_to_pkgs_ s' = Some idx ->
  to_app_id uid < 90000 ->
  is_hide_target uid process max_len w s
  = match idx !! to_app_id uid with
    | None => Ret false s'
    | Some pkgs =>
        match owned_procs_contain m process (in_order pkgs) with
        | None => Fault
        | Some true => Ret true s'
        | Some false => Ret (existsb (name_rule process max_len) (in_order pkgs)) s'
        end
    end.
Proof.
  intros [m0 Hm0] Hupd Hm Hidx Happ. unfold is_hide_target.
  rewrite (bind_run _ _ _ _ _ (init_list_ready w s m0 Hm0)). cbn [negb]. cbv iota.
  rewrite (bind_run _ _ _ _ _ Hupd). unfold bind at 1. unfold get.
  rewrite Hm, Hidx. rewrite (proj2 (Z.leb_gt _ _) Happ).
  destruct (idx !! to_app_id uid) as [pkgs|]; [|reflexivity].
  destruct (owned_procs_contain m process (in_order pkgs)) as [[]|]; reflexivity.
Qed.



End MatchNormal.

(** ** Removing, and what the list keeps *)

Section RemoveMore.
Context `{Platform}.

Lemma hides_spec s m pkg proc :
  pkg_to_procs_ s = Some m -> hides s pkg proc <-> proc ∈ default ∅ (m !! pkg).
Proof.
  intros Hm. unfold hides. rewrite Hm. split.
  - intros (m0 & [= <-] & Hin). exact Hin.
  - intros Hin. eauto.
Qed.




Lemma update_pkg_uid_keeps_list name remove w s u s' :
  update_pkg_uid name remove w s = Ret u s' ->
  pkg_to_procs_ s' = pkg_to_procs_ s.
Proof.
  unfold update_pkg_uid. destruct (app_data w) as [us|]; [|intros [= _ <-]; reflexivity].
  destruct (first_owner us name); [|intros [= _ <-]; reflexivity].
  destruct (app_id_to_pkgs_ s); [|intros E; discriminate E].
  destruct remove; intros [= _ <-]; reflexivity.
Qed.

Lemma delete_keeps_packages (m : gmap string (gset string)) pkg :
  (forall p procs, m !! p = Some procs -> procs <> ∅) ->
  forall p procs, delete pkg m !! p = Some procs -> procs <> ∅.
Proof.
  intros Hm p procs. destruct (decide (pkg = p)) as [<-|Hne].
  - rewrite lookup_delete_eq. intros E. discriminate E.
  - rewrite lookup_delete_ne by exact Hne. apply Hm.
Qed.

(** X7: [add_hide_list] and [rm_hide_list] never leave a package with an
    empty process set on a built hide list that had none: adding puts a
    process into the set it creates, and removing the last process of a
    package drops the package. *)
Theorem X7_no_empty_package_kept pkg proc w s :
  is_Some (pkg_to_procs_ s) -> no_empty_package s ->
  (forall r s', add_hide_list pkg proc w s = Ret r s' -> no_empty_package s')
  /\ (forall r s', rm_hide_list pkg proc w s = Ret r s' -> no_empty_package s').
Proof.
  intros [m Hm] Hne.
  assert (Hm_ne : forall p procs, m !! p = Some procs -> procs <> ∅)
    by (intros p procs; exact (Hne m p procs Hm)).
  assert (Hfrom : forall (m' : gmap string (gset string)) s',
             pkg_to_procs_ s' = Some m' ->
             (forall p procs, m' !! p = Some procs -> procs <> ∅) ->
             no_empty_package s').
  { intros m' s' Hm' Hall m0 p procs Hm0. rewrite Hm' in Hm0.
    injection Hm0 as <-. apply Hall. }
  split.
  - intros r s' Hrun. destruct (validate pkg (effective_proc pkg proc)) eqn:Hv.
    2:{ unfold add_hide_list in Hrun. fold (effective_proc pkg proc) in Hrun.
        rewrite Hv in Hrun. injection Hrun as _ <-. exact Hne. }
    rewrite (add_hide_list_steps pkg proc w s m Hm Hv) in Hrun.
    destruct (decide (effective_proc pkg proc ∈ default ∅ (m !! pkg)))
      as [Hin|Hnew].
    { rewrite (add_hide_set_present _ _ w s m Hm Hin) in Hrun.
      injection Hrun as _ <-. exact Hne. }
    destruct (procfp s) eqn:Hfp.
    2:{ rewrite (add_hide_set_no_procfp _ _ w s m Hm Hfp Hnew) in Hrun.
        discriminate Hrun. }
    rewrite (add_hide_set_new _ _ w s m Hm Hfp Hnew) in Hrun.
    apply bind_ret_inv in Hrun as (u & s1 & Hupd & Hrun).
    apply update_pkg_uid_keeps_list in Hupd. simpl in Hupd.
    unfold bind, emit, modify, ret in Hrun.
    assert (Hm' : pkg_to_procs_ s' = pkg_to_procs_ s1)
      by (destruct (db_write_fails w); injection Hrun as _ <-; reflexivity).
    apply (Hfrom _ s' (eq_trans Hm' Hupd)).
    apply insert_keeps_packages, Hm_ne.
  - intros r s' Hrun. unfold rm_hide_list in Hrun.
    rewrite (bind_run _ _ _ _ _ (init_list_ready w s m Hm)) in Hrun.
    cbn [negb] in Hrun. cbv iota in Hrun.
    apply bind_ret_inv in Hrun as (removed & s1 & Hset & Hrun).
    assert (Hm' : pkg_to_procs_ s' = pkg_to_procs_ s1).
    { unfold bind, emit, modify, ret in Hrun.
      destruct removed; simpl in Hrun;
        [destruct (db_write_fails w)|]; injection Hrun as _ <-; reflexivity. }
    clear Hrun. unfold rm_hide_set in Hset. unfold bind at 1 in Hset.
    unfold get in Hset. rewrite Hm in Hset.
    destruct (m !! pkg) as [procs|] eqn:Hpkg;
      [|injection Hset as _ <-; intros m0 p ps Hm0; apply Hne; congruence].
    destruct (is_empty proc).
    + apply bind_ret_inv in Hset as (u & s2 & Hupd & Hset).
      apply update_pkg_uid_keeps_list in Hupd.
      unfold bind, modify, ret in Hset. injection Hset as _ <-.
      apply (Hfrom (delete pkg m) s'); [rewrite Hm'; reflexivity|].
      apply delete_keeps_packages, Hm_ne.
    + destruct (bool_decide (proc ∈ procs));
        [|injection Hset as _ <-; intros m0 p ps Hm0; apply Hne; congruence].
      unfold bind at 1 in Hset. unfold modify at 1 in Hset.
      destruct (decide (procs ∖ {[proc]} = ∅)) as [E|Hmore].
      * apply bind_ret_inv in Hset as (u & s2 & Hstep & Hset).
        apply bind_ret_inv in Hstep as (u' & s3 & Hupd & Hstep).
        apply update_pkg_uid_keeps_list in Hupd.
        unfold modify in Hstep. injection Hstep as _ <-.
        unfold ret in Hset. injection Hset as _ <-.
        apply (Hfrom (delete pkg m) s'); [rewrite Hm'; reflexivity|].
        apply delete_keeps_packages, Hm_ne.
      * unfold bind, ret in Hset. injection Hset as _ <-.
        apply (Hfrom (<[pkg := procs ∖ {[proc]}]> m) s');
          [rewrite Hm'; reflexivity|].
        intros p ps. destruct (decide (pkg = p)) as [<-|Hnp].
        -- rewrite lookup_insert_eq. intros [= <-]. exact Hmore.
        -- rewrite lookup_insert_ne by exact Hnp. apply Hm_ne.
Qed.

End RemoveMore.

(** ** A rebuild of the index *)

Section RebuildMore.
Context `{Platform}.

Lemma first_hidden_found m a es e :
  In e es -> owner_app_id e = a -> is_Some (m !! d_name e) ->
  is_Some (first_hidden m a es).
Proof.
  intros Hin Ha Hh. unfold first_hidden.
  destruct (List.find _ es) as [e'|] eqn:Hfind; [eauto|].
  exfalso. apply (find_none _ _ Hfind) in Hin. rewrite Ha, Z.eqb_refl in Hin.
  rewrite bool_decide_eq_true_2 in Hin by exact Hh. discriminate Hin.
Qed.

(** X9: when the fingerprint of the registry has changed, a refresh of
    built structures puts the index back within the hide list, whatever it
    held before, and leaves the hide list alone.  Every bucket of the new
    index holds exactly one package, and every app id that owns a directory
    named like a hidden package has a bucket.  When the app data directory
    cannot be opened the new index is empty. *)
Theorem X9_rebuild_restores_index w s :
  initialized s -> pkg_xml_ino s <> packages_xml_ino w ->
  exists s',
    update_uid_map w s = Ret tt s'
    /\ pkg_to_procs_ s' = pkg_to_procs_ s
    /\ index_in_store s'
    /\ (forall idx a pkgs, app_id_to_pkgs_ s' = Some idx ->
          idx !! a = Some pkgs -> exists pkg, pkgs = {[pkg]})
    /\ (forall m e, pkg_to_procs_ s = Some m ->
          In e (walk (default [] (app_data w))) -> is_Some (m !! d_name e) ->
          bucket s' (owner_app_id e) <> ∅)
    /\ (app_data w = None -> app_id_to_pkgs_ s' = Some ∅).
Proof.
  intros [[m Hm] [idx Hidx]] Hne.
  destruct (update_uid_map_rebuilds w s m idx Hne Hm Hidx) as (idx' & Hrun & Hb).
  eexists. split; [exact Hrun|]. simpl. split; [reflexivity|]. split; [|split; [|split]].
  - intros m0 idx0 a pkgs pkg Hm0 Hidx0 Ha Hin. simpl in Hm0, Hidx0.
    rewrite Hm in Hm0. injection Hm0 as <-. injection Hidx0 as <-.
    rewrite Hb in Ha.
    destruct (first_hidden m a _) as [e|] eqn:Hf; [|discriminate Ha].
    simpl in Ha. injection Ha as <-. apply elem_of_singleton in Hin. subst pkg.
    exact (first_hidden_hidden _ _ _ _ Hf).
  - intros idx0 a pkgs [= <-] Ha. rewrite Hb in Ha.
    destruct (first_hidden m a _) as [e|]; [|discriminate Ha].
    simpl in Ha. injection Ha as <-. eauto.
  - intros m0 e Hm0 Hin Hh. rewrite Hm in Hm0. injection Hm0 as <-.
    unfold bucket. simpl. rewrite Hb.
    destruct (first_hidden_found m (owner_app_id e) _ e Hin eq_refl Hh)
      as [e' ->].
    simpl. intros E.
    assert (Hmem : d_name e' ∈ ({[d_name e']} : gset string))
      by (apply elem_of_singleton; reflexivity).
    rewrite E in Hmem. apply not_elem_of_empty in Hmem. exact Hmem.
  - intros Hdir. f_equal. apply map_eq. intros a. rewrite Hb, Hdir, lookup_empty.
    reflexivity.
Qed.

End RebuildMore.

(** ** Enabling and disabling, end to end *)

Section LifecycleMore.
Context `{Platform}.

Lemma sweep_zygotes_runs w s :
  procfp s = true ->
  exists killed,
    sweep_zygotes w s = Ret tt (set_trace (trace s ++ List.map Kill killed) s).
Proof.
  intros Hfp. unfold sweep_zygotes.
  unfold bind at 1. rewrite kill_process_kills by exact Hfp.
  unfold bind at 1. rewrite kill_process_kills by exact Hfp.
  rewrite kill_process_kills by exact Hfp.
  rewrite !set_trace_twice. simpl trace. eexists.
  rewrite <- !app_assoc, <- !List.map_app. reflexivity.
Qed.

(** Enabling a disabled daemon that has no hide list yet, when the
    namespace exists, [/proc] can be opened and the database can be
    read. *)
Lemma launch_enables late_props w s :
  hide_enabled s = false -> pkg_to_procs_ s = None ->
  ns_mnt_exists w = true -> procfp s || proc_dir_opens w = true ->
  db_select_fails w = false ->
  exists s' before,
    launch_magiskhide late_props w s
    = Ret (if thread_start_fails w then DAEMON_ERROR else DAEMON_SUCCESS) s'
    /\ hide_enabled s' = true /\ procfp s' = true
    /\ initialized s' /\ index_in_store s' /\ no_empty_package s'
    /\ (forall pkg proc, hides s' pkg proc <-> In (pkg, proc) (db_hidelist w))
    /\ pkg_xml_ino s' = packages_xml_ino w
    /\ (pkg_xml_ino s = packages_xml_ino w -> app_id_to_pkgs_ s' = Some ∅)
    /\ trace s'
       = before ++ [if thread_start_fails w then NewDaemonThread
                    else DbExec (ReplaceHideConfig true)].
Proof.
  intros Hoff Hm Hns Hproc Hdb. unfold launch_magiskhide.
  unfold bind at 1. unfold get. rewrite Hoff, Hns.
  assert (Hopen : negb (procfp s) && negb (proc_dir_opens w) = false).
  { destruct (procfp s), (proc_dir_opens w); simpl in *;
      try reflexivity; discriminate Hproc. }
  rewrite Hopen. cbn [negb]. cbv iota.
  unfold bind at 1. unfold modify at 1. unfold bind at 1. unfold modify at 1.
  destruct (init_list_loads w (set_hide_enabled true (set_procfp true s)) Hm eq_refl)
    as (s1 & Hrun & Hmem & Hnoe & Hen & Hfp & _ & _ & Hok).
  rewrite Hdb in Hrun. rewrite (bind_run _ _ _ _ _ Hrun). cbn [negb]. cbv iota.
  destruct (Hok Hdb) as (Hinit & Hinv & Hino & Hempty). simpl in Hen, Hempty.
  assert (Hsweep : exists t1,
             (if 29 <=? SDK_INT w then sweep_zygotes w else ret tt) s1
             = Ret tt (set_trace t1 s1)).
  { destruct (29 <=? SDK_INT w).
    - destruct (sweep_zygotes_runs w s1 Hfp) as [killed Hk]. eauto.
    - exists (trace s1). unfold ret. rewrite set_trace_same. reflexivity. }
  destruct Hsweep as [t1 Hsweep]. rewrite (bind_run _ _ _ _ _ Hsweep).
  unfold bind at 1. unfold emit at 1, modify at 1.
  assert (Hlate : exists t2,
             (if late_props then emit HideLateSensitiveProps else ret tt)
               (set_trace (trace (set_trace t1 s1) ++ [HideSensitiveProps])
                  (set_trace t1 s1))
             = Ret tt (set_trace t2 s1)).
  { destruct late_props; eexists; reflexivity. }
  destruct Hlate as [t2 Hlate]. rewrite (bind_run _ _ _ _ _ Hlate).
  unfold bind at 1. unfold emit at 1, modify at 1.
  destruct (thread_start_fails w).
  - eexists _, _. split; [reflexivity|].
    split; [exact Hen|]. split; [exact Hfp|]. split; [exact Hinit|].
    split; [exact Hinv|]. split; [exact Hnoe|]. split; [exact Hmem|].
    split; [exact Hino|]. split; [exact Hempty | reflexivity].
  - match goal with |- context [bind (update_uid_map w) _ ?st] =>
      rewrite (bind_run _ _ _ _ _ (update_uid_map_unchanged w st Hino))
    end.
    unfold bind, update_hide_config, bind, get, emit, modify, ret. simpl.
    rewrite Hen. eexists _, _. split; [reflexivity|].
    split; [exact Hen|]. split; [exact Hfp|]. split; [exact Hinit|].
    split; [exact Hinv|]. split; [exact Hnoe|]. split; [exact Hmem|].
    split; [exact Hino|]. split; [exact Hempty | reflexivity].
Qed.

End LifecycleMore.

Section LifecycleTheorems.
Context `{Platform}.

(** X11: enabling a disabled daemon that has no hide list yet succeeds
    whenever the mount namespace exists, [/proc] is or can be opened, the
    database can be read and the monitor thread starts.  The flag is then
    on, both structures are built, the hide list holds exactly the rows of
    the database, the index names only packages of the list, the
    fingerprint is current, and the last thing done is to persist the
    enabled setting. *)
Theorem X11_launch_enables late_props w s :
  hide_enabled s = false -> pkg_to_procs_ s = None ->
  ns_mnt_exists w = true -> procfp s || proc_dir_opens w = true ->
  db_select_fails w = false -> thread_start_fails w = false ->
  exists s' before,
    launch_magiskhide late_props w s = Ret DAEMON_SUCCESS s'
    /\ hide_enabled s' = true /\ initialized s' /\ index_in_store s'
    /\ (forall pkg proc, hides s' pkg proc <-> In (pkg, proc) (db_hidelist w))
    /\ pkg_xml_ino s' = packages_xml_ino w
    /\ trace s' = before ++ [DbExec (ReplaceHideConfig true)].
Proof.
  intros Hoff Hm Hns Hproc Hdb Hth.
  destruct (launch_enables late_props w s Hoff Hm Hns Hproc Hdb)
    as (s' & before & Hrun & Hen & _ & Hinit & Hinv & _ & Hmem & Hino & _ & Htr).
  rewrite Hth in Hrun, Htr. exists s', before. auto 10.
Qed.

(** X12: when only the monitor thread fails to start, [launch_magiskhide]
    answers [DAEMON_ERROR] but leaves the flag on and both structures
    built; the enabled setting is not persisted, the failed start being
    the last thing done.  Every later [launch_magiskhide] then answers
    [DAEMON_SUCCESS] without doing anything. *)
Theorem X12_launch_thread_failure late_props w s :
  hide_enabled s = false -> pkg_to_procs_ s = None ->
  ns_mnt_exists w = true -> procfp s || proc_dir_opens w = true ->
  db_select_fails w = false -> thread_start_fails w = true ->
  exists s' before,
    launch_magiskhide late_props w s = Ret DAEMON_ERROR s'
    /\ hide_enabled s' = true /\ initialized s'
    /\ trace s' = before ++ [NewDaemonThread]
    /\ forall late_props' w',
         launch_magiskhide late_props' w' s' = Ret DAEMON_SUCCESS s'.
Proof.
  intros Hoff Hm Hns Hproc Hdb Hth.
  destruct (launch_enables late_props w s Hoff Hm Hns Hproc Hdb)
    as (s' & before & Hrun & Hen & _ & Hinit & _ & _ & _ & _ & _ & Htr).
  rewrite Hth in Hrun, Htr. exists s', before.
  split; [exact Hrun|]. split; [exact Hen|]. split; [exact Hinit|].
  split; [exact Htr|]. intros late' w'. unfold launch_magiskhide.
  unfold bind at 1. unfold get. rewrite Hen. reflexivity.
Qed.

(** X13: the failures of [launch_magiskhide] on a disabled daemon that come
    before or during initialisation.  Without the mount namespace it
    answers [HIDE_NO_NS]; with the namespace but no way to open [/proc] it
    answers [DAEMON_ERROR]; in both cases the daemon is left exactly as it
    was.  When the database cannot be read to the end it answers
    [DAEMON_ERROR] with the flag off again, the index untouched, and the
    rows that were read kept on the hide list. *)
Theorem X13_launch_failures late_props w s :
  hide_enabled s = false ->
  (ns_mnt_exists w = false -> launch_magiskhide late_props w s = Ret HIDE_NO_NS s)
  /\ (ns_mnt_exists w = true -> procfp s = false -> proc_dir_opens w = false ->
      launch_magiskhide late_props w s = Ret DAEMON_ERROR s)
  /\ (ns_mnt_exists w = true -> procfp s || proc_dir_opens w = true ->
      pkg_to_procs_ s = None -> db_select_fails w = true ->
      exists s',
        launch_magiskhide late_props w s = Ret DAEMON_ERROR s'
        /\ hide_enabled s' = false
        /\ app_id_to_pkgs_ s' = app_id_to_pkgs_ s
        /\ forall pkg proc, hides s' pkg proc <-> In (pkg, proc) (db_hidelist w)).
Proof.
  intros Hoff. split; [|split].
  - intros Hns. apply launch_without_namespace; assumption.
  - intros Hns Hfp Hopen. unfold launch_magiskhide. unfold bind at 1.
    unfold get. rewrite Hoff, Hns, Hfp, Hopen. reflexivity.
  - intros Hns Hproc Hm Hdb. unfold launch_magiskhide.
    unfold bind at 1. unfold get. rewrite Hoff, Hns.
    assert (Hopen : negb (procfp s) && negb (proc_dir_opens w) = false).
    { destruct (procfp s), (proc_dir_opens w); simpl in *;
        try reflexivity; discriminate Hproc. }
    rewrite Hopen. cbn [negb]. cbv iota.
    unfold bind at 1. unfold modify at 1. unfold bind at 1. unfold modify at 1.
    destruct (init_list_loads w (set_hide_enabled true (set_procfp true s))
                Hm eq_refl)
      as (s1 & Hrun & Hmem & _ & _ & _ & _ & Hidx & _).
    rewrite Hdb in Hrun. rewrite (bind_run _ _ _ _ _ Hrun). cbn [negb]. cbv iota.
    unfold bind, modify, ret. eexists. split; [reflexivity|]. simpl.
    split; [reflexivity|]. split; [exact (Hidx Hdb) | exact Hmem].
Qed.

(** X14: disabling and enabling again does not bring the index back.
    [stop_magiskhide] on an enabled daemon turns the flag off and frees
    both structures but keeps the cached fingerprint.  When the registry
    still has that fingerprint, the next [launch_magiskhide] reloads the
    hide list from the database and skips the scan: it ends with the flag
    on and an empty index, so no process of an ordinary app is a hide
    target, whatever the hide list holds. *)
Theorem X14_stop_then_launch late_props w s :
  hide_enabled s = true -> procfp s = true ->
  pkg_xml_ino s = packages_xml_ino w ->
  ns_mnt_exists w = true -> db_select_fails w = false ->
  thread_start_fails w = false ->
  exists s0 s',
    stop_magiskhide s = Ret DAEMON_SUCCESS s0
    /\ hide_enabled s0 = false
    /\ pkg_to_procs_ s0 = None /\ app_id_to_pkgs_ s0 = None
    /\ pkg_xml_ino s0 = pkg_xml_ino s
    /\ launch_magiskhide late_props w s0 = Ret DAEMON_SUCCESS s'
    /\ hide_enabled s' = true
    /\ (forall pkg proc, hides s' pkg proc <-> In (pkg, proc) (db_hidelist w))
    /\ app_id_to_pkgs_ s' = Some ∅
    /\ forall uid process max_len,
         to_app_id uid < 90000 ->
         is_hide_target uid process max_len w s' = Ret false s'.
Proof.
  intros Hon Hfp Hino Hns Hdb Hth.
  assert (Hstop : exists s0,
             stop_magiskhide s = Ret DAEMON_SUCCESS s0
             /\ hide_enabled s0 = false
             /\ pkg_to_procs_ s0 = None /\ app_id_to_pkgs_ s0 = None
             /\ pkg_xml_ino s0 = pkg_xml_ino s /\ procfp s0 = procfp s).
  { unfold stop_magiskhide. unfold bind at 1. unfold get. rewrite Hon.
    unfold bind, update_hide_config, bind, get, emit, modify, ret. simpl.
    eexists. split; [reflexivity|]. simpl. auto 10. }
  destruct Hstop as (s0 & Hstop & Hoff0 & Hm0 & Hidx0 & Hino0 & Hfp0).
  destruct (launch_enables late_props w s0 Hoff0 Hm0 Hns)
    as (s' & before & Hrun & Hen & _ & Hinit & _ & _ & Hmem & Hino' & Hempty & _);
    [rewrite Hfp0, Hfp; reflexivity | exact Hdb |].
  rewrite Hth in Hrun. exists s0, s'.
  split; [exact Hstop|]. split; [exact Hoff0|]. split; [exact Hm0|].
  split; [exact Hidx0|]. split; [exact Hino0|]. split; [exact Hrun|].
  split; [exact Hen|]. split; [exact Hmem|].
  assert (Hidx' : app_id_to_pkgs_ s' = Some ∅) by (apply Hempty; congruence).
  split; [exact Hidx'|]. intros uid process max_len Happ.
  destruct Hinit as [[m Hm] _].
  rewrite (is_hide_target_normal uid process max_len w s' s' m ∅
             (ex_intro _ m Hm) (update_uid_map_unchanged w s' Hino') Hm Hidx' Happ).
  rewrite lookup_empty. reflexivity.
Qed.

End LifecycleTheorems.

(** ** Listing *)

Section ListingFacts.
Context `{Platform}.

Lemma NoDup_in_order (X : gset string) : NoDup (in_order X).
Proof.
  unfold in_order. rewrite merge_sort_Permutation. apply NoDup_elements.
Qed.

Lemma NoDup_map_pair (k : string) (l : list string) :
  NoDup l -> NoDup (List.map (pair k) l).
Proof.
  induction 1 as [|x l Hx Hl IH]; simpl; constructor; [|exact IH].
  intros Hin. apply list_elem_of_In, in_map_iff in Hin as (y & [= ->] & Hy).
  apply Hx, list_elem_of_In, Hy.
Qed.

Lemma in_ls_pairs m pkg proc :
  In (pkg, proc) (ls_pairs m) <-> proc ∈ default ∅ (m !! pkg).
Proof.
  unfold ls_pairs. rewrite in_flat_map. split.
  - intros (k & _ & Hin). apply in_map_iff in Hin as (q & [= -> ->] & Hq).
    apply in_in_order in Hq. exact Hq.
  - intros Hin. exists pkg. split.
    + apply in_in_order, elem_of_dom.
      destruct (m !! pkg); [eauto|].
      simpl in Hin. apply not_elem_of_empty in Hin. destruct Hin.
    + apply in_map_iff. exists proc. split; [reflexivity|].
      apply in_in_order. exact Hin.
Qed.

Lemma NoDup_pairs (f : string -> list string) keys :
  NoDup keys -> (forall k, NoDup (f k)) ->
  NoDup (List.flat_map (fun k => List.map (pair k) (f k)) keys).
Proof.
  intros Hkeys Hf. induction Hkeys as [|k keys Hk Hkeys IH]; simpl;
    [constructor|].
  apply NoDup_app. split; [apply NoDup_map_pair, Hf|]. split; [|exact IH].
  intros [p q] Hin Hin'. apply list_elem_of_In in Hin, Hin'.
  apply in_map_iff in Hin as (q0 & [= <- <-] & _).
  apply in_flat_map in Hin' as (k' & Hk' & Hin').
  apply in_map_iff in Hin' as (q1 & [= -> _] & _).
  apply Hk, list_elem_of_In, Hk'.
Qed.

(** X15: on a built hide list [ls_hide_list] changes nothing in the daemon
    and sends the success status, then one record for each pair of the
    hide list, each pair once and no other, then the terminating zero, and
    closes the connection.  When the list has to be loaded first and the
    database cannot be read, it sends the error status alone: no
    terminator, and the connection is not closed. *)
Theorem X15_ls_hide_list_lists w s :
  (is_Some (pkg_to_procs_ s) ->
   exists pairs,
     ls_hide_list w s
     = Ret (WriteStatus DAEMON_SUCCESS
            :: List.flat_map ls_record pairs ++ [WriteInt 0; CloseClient]) s
     /\ NoDup pairs
     /\ forall pkg proc, In (pkg, proc) pairs <-> hides s pkg proc)
  /\ (pkg_to_procs_ s = None -> procfp s = true -> db_select_fails w = true ->
      exists s', ls_hide_list w s = Ret [WriteStatus DAEMON_ERROR] s').
Proof.
  split.
  - intros [m Hm]. exists (ls_pairs m). split; [|split].
    + unfold ls_hide_list.
      rewrite (bind_run _ _ _ _ _ (init_list_ready w s m Hm)). cbn [negb]. cbv iota.
      unfold bind, get. rewrite Hm. reflexivity.
    + apply NoDup_pairs; intros; apply NoDup_in_order.
    + intros pkg proc. rewrite in_ls_pairs. symmetry.
      apply hides_spec. exact Hm.
  - intros Hm Hfp Hdb.
    destruct (init_list_loads w s Hm Hfp) as (s' & Hrun & _).
    rewrite Hdb in Hrun. exists s'. unfold ls_hide_list.
    rewrite (bind_run _ _ _ _ _ Hrun). reflexivity.
Qed.

End ListingFacts.

(** ** The further properties on the sample phone *)

Section MoreRuns.
#[local] Existing Instance Demo.platform.




Lemma no_empty_package_hiding_a : no_empty_package Samples.hiding_a.
Proof.
  intros m p procs Hm Hp. simpl in Hm. injection Hm as <-.
  destruct (decide (p = "com.a")) as [->|Hne].
  - rewrite lookup_singleton_eq in Hp. injection Hp as <-. intros E.
    assert (Hin : "com.a" ∈ ({[ "com.a"; "com.a:push" ]} : gset string))
      by (apply elem_of_union_l, elem_of_singleton; reflexivity).
    rewrite E in Hin. apply not_elem_of_empty in Hin. exact Hin.
  - rewrite lookup_singleton_ne in Hp by congruence. discriminate Hp.
Qed.



(** An invalid pair on a daemon that never ran, and a valid one against a
    database that cannot be read. *)
Lemma X4_add_hide_list_gives_up_witness :
  add_hide_list "com foo" "x" Demo.phone boot = Ret HIDE_INVALID_PKG boot
  /\ exists s' killed,
       add_hide_list "com.b" "" Demo.broken_db (set_procfp true boot)
       = Ret DAEMON_ERROR s'
       /\ (forall p q, hides s' p q <-> In (p, q) (db_hidelist Demo.broken_db))
       /\ trace s'
          = trace (set_procfp true boot)
            ++ DbExec SelectHidelist :: List.map Kill killed.
Proof.
  split.
  - apply (proj1 (X4_add_hide_list_gives_up "com foo" "x" Demo.phone boot)).
    by_running.
  - apply (proj2 (X4_add_hide_list_gives_up "com.b" "" Demo.broken_db
                    (set_procfp true boot))); by_running.
Defined.



(** Removing one of the two processes of [com.a], and adding [com.b]. *)
Lemma X7_no_empty_package_kept_witness :
  (exists s',
     rm_hide_list "com.a" "com.a" Demo.phone Samples.hiding_a
     = Ret DAEMON_SUCCESS s'
     /\ no_empty_package s')
  /\ (exists s',
        add_hide_list "com.b" "" Demo.phone Samples.hiding_a
        = Ret DAEMON_SUCCESS s'
        /\ no_empty_package s').
Proof.
  split.
  - eexists. split; [by_running|].
    eapply (proj2 (X7_no_empty_package_kept "com.a" "com.a" Demo.phone
                     Samples.hiding_a (ex_intro _ _ eq_refl)
                     no_empty_package_hiding_a)).
    by_running.
  - eexists. split; [by_running|].
    eapply (proj1 (X7_no_empty_package_kept "com.b" "" Demo.phone
                     Samples.hiding_a (ex_intro _ _ eq_refl)
                     no_empty_package_hiding_a)).
    by_running.
Defined.


(** The stale index of [Demo.stale] rebuilt on the sample phone. *)
Lemma X9_rebuild_restores_index_witness :
  exists s',
    update_uid_map Demo.phone Demo.stale = Ret tt s'
    /\ index_in_store s'
    /\ bucket s' 10001 <> ∅.
Proof.
  destruct (X9_rebuild_restores_index Demo.phone Demo.stale)
    as (s' & Hrun & _ & Hinv & _ & Hcover & _).
  - split; eexists; reflexivity.
  - simpl. lia.
  - exists s'. split; [exact Hrun|]. split; [exact Hinv|].
    apply (Hcover Demo.hidden_ab {| d_name := "com.a"; st_uid := Some 10001 |}).
    + reflexivity.
    + simpl. tauto.
    + exists {[ "com.a" ]}. by_running.
Defined.


(** The first enable after boot, with two rows in the database. *)
Lemma X11_launch_enables_witness :
  exists s' before,
    launch_magiskhide false Samples.with_rows boot = Ret DAEMON_SUCCESS s'
    /\ hide_enabled s' = true /\ initialized s' /\ index_in_store s'
    /\ (forall pkg proc,
          hides s' pkg proc <-> In (pkg, proc) (db_hidelist Samples.with_rows))
    /\ pkg_xml_ino s' = packages_xml_ino Samples.with_rows
    /\ trace s' = before ++ [DbExec (ReplaceHideConfig true)].
Proof.
  apply (X11_launch_enables false Samples.with_rows boot); reflexivity.
Defined.

(** The same enable when the monitor thread cannot be started. *)
Lemma X12_launch_thread_failure_witness :
  exists s' before,
    launch_magiskhide false Samples.no_thread boot = Ret DAEMON_ERROR s'
    /\ hide_enabled s' = true /\ initialized s'
    /\ trace s' = before ++ [NewDaemonThread]
    /\ forall late_props' w',
         launch_magiskhide late_props' w' s' = Ret DAEMON_SUCCESS s'.
Proof.
  apply (X12_launch_thread_failure false Samples.no_thread boot); reflexivity.
Defined.

(** The three failures on a daemon that has just started. *)
Lemma X13_launch_failures_witness :
  launch_magiskhide false Samples.no_namespace boot = Ret HIDE_NO_NS boot
  /\ launch_magiskhide false Samples.no_proc boot = Ret DAEMON_ERROR boot
  /\ exists s',
       launch_magiskhide false Demo.broken_db boot = Ret DAEMON_ERROR s'
       /\ hide_enabled s' = false
       /\ app_id_to_pkgs_ s' = app_id_to_pkgs_ boot
       /\ forall pkg proc,
            hides s' pkg proc <-> In (pkg, proc) (db_hidelist Demo.broken_db).
Proof.
  split; [|split].
  - apply (proj1 (X13_launch_failures false Samples.no_namespace boot eq_refl)).
    reflexivity.
  - apply (proj1 (proj2 (X13_launch_failures false Samples.no_proc boot eq_refl)));
      reflexivity.
  - apply (proj2 (proj2 (X13_launch_failures false Demo.broken_db boot eq_refl)));
      reflexivity.
Defined.

(** Disabling and enabling again on the sample phone: [com.a] is in the
    database and installed, and still no hide target afterwards. *)
Lemma X14_stop_then_launch_witness :
  exists s0 s',
    stop_magiskhide Samples.hiding_a = Ret DAEMON_SUCCESS s0
    /\ launch_magiskhide false Samples.with_rows s0 = Ret DAEMON_SUCCESS s'
    /\ hides s' "com.a" "com.a"
    /\ app_id_to_pkgs_ s' = Some ∅
    /\ is_hide_target 10001 "com.a" 1024 Samples.with_rows s' = Ret false s'.
Proof.
  destruct (X14_stop_then_launch false Samples.with_rows Samples.hiding_a
              eq_refl eq_refl eq_refl eq_refl eq_refl eq_refl)
    as (s0 & s' & Hstop & _ & _ & _ & _ & Hrun & _ & Hmem & Hidx & Hq).
  exists s0, s'. split; [exact Hstop|]. split; [exact Hrun|].
  split; [apply Hmem; simpl; tauto|]. split; [exact Hidx|].
  apply Hq. by_running.
Defined.

(** Listing the two pairs of [Samples.hiding_a], and listing against a
    database that cannot be read. *)
Lemma X15_ls_hide_list_lists_witness :
  (exists pairs,
     ls_hide_list Demo.phone Samples.hiding_a
     = Ret (WriteStatus DAEMON_SUCCESS
            :: List.flat_map ls_record pairs ++ [WriteInt 0; CloseClient])
         Samples.hiding_a
     /\ NoDup pairs
     /\ forall pkg proc, In (pkg, proc) pairs <-> hides Samples.hiding_a pkg proc)
  /\ exists s',
       ls_hide_list Demo.broken_db (set_procfp true boot)
       = Ret [WriteStatus DAEMON_ERROR] s'.
Proof.
  split.
  - apply (proj1 (X15_ls_hide_list_lists Demo.phone Samples.hiding_a)).
    eexists. reflexivity.
  - apply (proj2 (X15_ls_hide_list_lists Demo.broken_db (set_procfp true boot)));
      reflexivity.
Defined.

Example ls_of_hiding_a :
  ls_hide_list Demo.phone Samples.hiding_a
  = Ret [ WriteStatus DAEMON_SUCCESS;
          WriteInt 11; XWrite "com.a"; XWrite "|"; XWrite "com.a";
          WriteInt 16; XWrite "com.a"; XWrite "|"; XWrite "com.a:push";
          WriteInt 0; CloseClient ] Samples.hiding_a.
Proof. by_running. Qed.

(** A list edit on a daemon that built its (empty) list without ever
    opening [/proc], and the first operations after boot with rows in the
    database. *)
Lemma X16_reaper_needs_procfp_witness :
  add_hide_list "com.a" "" Demo.phone Samples.never_launched = Fault
  /\ init_list Samples.with_rows boot = Fault
  /\ rm_hide_list "com.a" "" Samples.with_rows boot = Fault
  /\ is_hide_target 10001 "com.a" 1024 Samples.with_rows boot = Fault
  /\ ls_hide_list Samples.with_rows boot = Fault.
Proof.
  split.
  - apply (proj1 (X16_reaper_needs_procfp "com.a" "" Demo.phone
                    Samples.never_launched eq_refl) ∅).
    + reflexivity.
    + by_running.
    + rewrite lookup_empty. apply not_elem_of_empty.
  - destruct (proj2 (X16_reaper_needs_procfp "com.a" "" Samples.with_rows boot
                       eq_refl) eq_refl)
      as (Hinit & Hrm & Hq & Hls & _).
    + intros E. discriminate E.
    + split; [exact Hinit|]. split; [exact Hrm|]. split; [|exact Hls].
      exact (Hq 10001 1024).
Defined.



End MoreRuns.

(** ** List edits and the next question *)

Section EditThenAsk.
Context `{Platform}.





End EditThenAsk.

Section EditThenAskRuns.
#[local] Existing Instance Demo.platform.



End EditThenAskRuns.
